(** * PageReader: URL validation, proxy fallback fetch and HTML download

    A shallow embedding of [src/components/PageReader.tsx].  The component
    keeps five pieces of React state, validates the typed URL, walks the
    list of CORS proxies until one answers with an ok response, and can
    save the fetched HTML as a file.

    JavaScript strings are sequences of UTF-16 code units, so they are
    modelled as lists of numbers.  The asynchronous handlers are written in
    a small monad that threads the world (React state, effect log, object
    URL store, clock) and carries JavaScript completions: a computation
    either completes normally or throws, and the effects made before a
    throw are kept. *)

From Stdlib Require Import String Ascii Arith NArith Bool List Lia DecimalString.
Import ListNotations.
Local Open Scope N_scope.
Local Open Scope list_scope.

(** ** JavaScript strings *)

Module JsStr.

Definition CodeUnit := N.
Definition JsString := list CodeUnit.

(** An ASCII literal as a JavaScript string. *)
Definition js (s : string) : JsString :=
  map N_of_ascii (list_ascii_of_string s).

Arguments js s : simpl never.

(** Strict equality [===] on strings. *)
Fixpoint str_eqb (a b : JsString) : bool :=
  match a, b with
  | [], [] => true
  | x :: a', y :: b' => (x =? y) && str_eqb a' b'
  | _, _ => false
  end.

(** A string is falsy exactly when it is empty. *)
Definition truthy (s : JsString) : bool :=
  match s with [] => false | _ :: _ => true end.

Fixpoint starts_with (p s : JsString) : bool :=
  match p, s with
  | [], _ => true
  | x :: p', y :: s' => (x =? y) && starts_with p' s'
  | _ :: _, [] => false
  end.

(** [includes s p]: [p] occurs in [s] as a contiguous substring. *)
Fixpoint includes (s p : JsString) : bool :=
  starts_with p s ||
  match s with
  | [] => false
  | _ :: s' => includes s' p
  end.

(** Number to string, for non-negative integers below 10^21 (where
    JavaScript prints plain decimal digits). *)
Definition number_to_string (n : N) : JsString :=
  js (NilZero.string_of_uint (N.to_uint n)).

(** *** [String.prototype.trim]

    WhiteSpace and LineTerminator code points of ECMA-262. *)
Definition isWhiteSpace (c : CodeUnit) : bool :=
  (c =? 0x09) || (c =? 0x0A) || (c =? 0x0B) || (c =? 0x0C) || (c =? 0x0D)
  || (c =? 0x20) || (c =? 0xA0) || (c =? 0x1680)
  || ((0x2000 <=? c) && (c <=? 0x200A))
  || (c =? 0x2028) || (c =? 0x2029) || (c =? 0x202F) || (c =? 0x205F)
  || (c =? 0x3000) || (c =? 0xFEFF).

Fixpoint trimStart (s : JsString) : JsString :=
  match s with
  | [] => []
  | c :: s' => if isWhiteSpace c then trimStart s' else s
  end.

Definition trimEnd (s : JsString) : JsString := rev (trimStart (rev s)).

Definition trim (s : JsString) : JsString := trimEnd (trimStart s).

(** *** UTF-16 decoding and UTF-8 encoding *)

Definition isLeadSurrogate (c : CodeUnit) : bool :=
  (0xD800 <=? c) && (c <=? 0xDBFF).
Definition isTrailSurrogate (c : CodeUnit) : bool :=
  (0xDC00 <=? c) && (c <=? 0xDFFF).

Definition surrogate_pair (hi lo : CodeUnit) : N :=
  (hi - 0xD800) * 0x400 + (lo - 0xDC00) + 0x10000.

Definition utf8_octets (cp : N) : list N :=
  if cp <? 0x80 then [cp]
  else if cp <? 0x800 then
    [N.lor 0xC0 (N.shiftr cp 6); N.lor 0x80 (N.land cp 0x3F)]
  else if cp <? 0x10000 then
    [N.lor 0xE0 (N.shiftr cp 12);
     N.lor 0x80 (N.land (N.shiftr cp 6) 0x3F);
     N.lor 0x80 (N.land cp 0x3F)]
  else
    [N.lor 0xF0 (N.shiftr cp 18);
     N.lor 0x80 (N.land (N.shiftr cp 12) 0x3F);
     N.lor 0x80 (N.land (N.shiftr cp 6) 0x3F);
     N.lor 0x80 (N.land cp 0x3F)].

(** Conversion to a scalar value string: an unpaired surrogate becomes
    U+FFFD.  This is what the Blob constructor applies to string parts. *)
Fixpoint scalar_values (s : JsString) : list N :=
  match s with
  | [] => []
  | c :: s' =>
      if isLeadSurrogate c then
        match s' with
        | d :: s'' =>
            if isTrailSurrogate d then surrogate_pair c d :: scalar_values s''
            else 0xFFFD :: scalar_values s'
        | [] => [0xFFFD]
        end
      else if isTrailSurrogate c then 0xFFFD :: scalar_values s'
      else c :: scalar_values s'
  end.

Definition utf8_encode (s : JsString) : list N :=
  flat_map utf8_octets (scalar_values s).

(** *** [encodeURIComponent]

    ECMA-262 Encode with the unreserved set of [encodeURIComponent]:
    letters, digits and [-_.!~*'()].  [None] stands for the URIError
    thrown on an unpaired surrogate. *)
Definition isAsciiAlpha (c : CodeUnit) : bool :=
  ((0x41 <=? c) && (c <=? 0x5A)) || ((0x61 <=? c) && (c <=? 0x7A)).
Definition isAsciiDigit (c : CodeUnit) : bool :=
  (0x30 <=? c) && (c <=? 0x39).

Definition uriUnreserved (c : CodeUnit) : bool :=
  isAsciiAlpha c || isAsciiDigit c
  || existsb (N.eqb c) (js "-_.!~*'()").

Definition hexDigit (n : N) : CodeUnit :=
  nth (N.to_nat n) (js "0123456789ABCDEF") 0x30.

Definition percent (octet : N) : JsString :=
  [0x25; hexDigit (N.shiftr octet 4); hexDigit (N.land octet 0xF)].

Definition percent_utf8 (cp : N) : JsString :=
  flat_map percent (utf8_octets cp).

Fixpoint encodeURIComponent (s : JsString) : option JsString :=
  match s with
  | [] => Some []
  | c :: s' =>
      if uriUnreserved c then option_map (cons c) (encodeURIComponent s')
      else if isLeadSurrogate c then
        match s' with
        | d :: s'' =>
            if isTrailSurrogate d then
              option_map (app (percent_utf8 (surrogate_pair c d)))
                         (encodeURIComponent s'')
            else None
        | [] => None
        end
      else if isTrailSurrogate c then None
      else option_map (app (percent_utf8 c)) (encodeURIComponent s')
  end.

End JsStr.
Import JsStr.

(** ** The URL Standard: scheme scanning

    The front of the basic URL parser when no base URL is given: leading
    and trailing C0 controls and spaces are stripped, tabs and newlines are
    removed, then the scheme start state wants an ASCII letter and the
    scheme state reads letters, digits, [+], [-] and [.] up to the first
    colon, lower-casing as it goes.  Anything else reaches the no-scheme
    state, which fails without a base. *)

Module UrlStd.

Definition isC0ControlOrSpace (c : CodeUnit) : bool := c <=? 0x20.
Definition isTabOrNewline (c : CodeUnit) : bool :=
  (c =? 0x09) || (c =? 0x0A) || (c =? 0x0D).

Fixpoint stripStart (s : JsString) : JsString :=
  match s with
  | [] => []
  | c :: s' => if isC0ControlOrSpace c then stripStart s' else s
  end.

Definition preprocess (s : JsString) : JsString :=
  filter (fun c => negb (isTabOrNewline c))
         (rev (stripStart (rev (stripStart s)))).

Definition toAsciiLower (c : CodeUnit) : CodeUnit :=
  if (0x41 <=? c) && (c <=? 0x5A) then c + 0x20 else c.

Definition isSchemeChar (c : CodeUnit) : bool :=
  isAsciiAlpha c || isAsciiDigit c
  || (c =? 0x2B) || (c =? 0x2D) || (c =? 0x2E).

Fixpoint scheme_state (buffer s : JsString) : option JsString :=
  match s with
  | [] => None
  | c :: s' =>
      if isSchemeChar c then scheme_state (buffer ++ [toAsciiLower c]) s'
      else if c =? 0x3A then Some buffer
      else None
  end.

Definition scan_scheme (input : JsString) : option JsString :=
  match preprocess input with
  | [] => None
  | c :: s' =>
      if isAsciiAlpha c then scheme_state [toAsciiLower c] s' else None
  end.

End UrlStd.

(** ** Values, completions and the world *)

(** What a [catch] clause can receive: an [Error] instance with its
    message, or some other thrown value. *)
Inductive JsValue : Type :=
| ErrorObject (message : JsString)
| NonError.

Inductive Completion (A : Type) : Type :=
| Normal (a : A)
| Throw (e : JsValue).
Arguments Normal {A} a.
Arguments Throw {A} e.

(** A parsed URL object; only its scheme is read here. *)
Record URL : Type := { scheme : JsString }.

(** The [protocol] getter: the scheme followed by a colon. *)
Definition protocol (u : URL) : JsString := scheme u ++ js ":".

(** The arguments of one [fetch] call. *)
Record Request : Type := {
  input : JsString;
  method : JsString;
  headers : list (JsString * JsString)
}.

(** A response: its status and what [text()] settles to. *)
Record Response : Type := {
  status : N;
  text : Completion JsString
}.

(** [Response.ok]: the status is in the range 200-299. *)
Definition ok (r : Response) : bool :=
  (200 <=? status r) && (status r <=? 299).

Record Blob : Type := {
  blob_bytes : list N;
  blob_type : JsString
}.

(** The anchor element built by [downloadHtml]. *)
Record Anchor : Type := {
  href : JsString;
  download : JsString
}.

(** The file a click on a download anchor hands to the user. *)
Record Artifact : Type := {
  filename : JsString;
  mimeType : JsString;
  bytes : list N
}.

(** The React state of the component (the five [useState] cells). *)
Record State : Type := {
  url : JsString;
  htmlContent : JsString;
  loading : bool;
  error : JsString;
  lastFetchedUrl : JsString
}.

(** Effects, in the order the handlers perform them. *)
Inductive Event : Type :=
| EvSetLoading (b : bool)
| EvSetError (s : JsString)
| EvSetHtmlContent (s : JsString)
| EvSetLastFetchedUrl (s : JsString)
| EvFetch (r : Request)
| EvConsoleError (label : JsString) (v : JsValue)
| EvCreateObjectURL (b : Blob) (u : JsString)
| EvAppendChild (a : Anchor)
| EvClick (a : Anchor)
| EvDownload (f : Artifact)
| EvRemoveChild (a : Anchor)
| EvRevokeObjectURL (u : JsString).

Record World : Type := {
  react : State;
  log : list Event;
  objectURLs : list (JsString * Blob);
  clock : N
}.

Definition with_react (f : State -> State) (w : World) : World :=
  {| react := f (react w); log := log w;
     objectURLs := objectURLs w; clock := clock w |}.

Definition emit_all (es : list Event) (w : World) : World :=
  {| react := react w; log := log w ++ es;
     objectURLs := objectURLs w; clock := clock w |}.

Definition emit (e : Event) (w : World) : World := emit_all [e] w.

Definition with_objectURLs (f : list (JsString * Blob) -> list (JsString * Blob))
  (w : World) : World :=
  {| react := react w; log := log w;
     objectURLs := f (objectURLs w); clock := clock w |}.

(** The requests issued so far, oldest first. *)
Fixpoint requests_of (l : list Event) : list Request :=
  match l with
  | [] => []
  | EvFetch r :: l' => r :: requests_of l'
  | _ :: l' => requests_of l'
  end.

Fixpoint downloads_of (l : list Event) : list Artifact :=
  match l with
  | [] => []
  | EvDownload f :: l' => f :: downloads_of l'
  | _ :: l' => downloads_of l'
  end.

(** The effects [fetchPageContent] is written to make: state setters,
    fetches and [console.error]. *)
Definition fetchEffect (e : Event) : bool :=
  match e with
  | EvSetLoading _ | EvSetError _ | EvSetHtmlContent _
  | EvSetLastFetchedUrl _ | EvFetch _ | EvConsoleError _ _ => true
  | _ => false
  end.

Definition fetchCount (w : World) : nat := length (requests_of (log w)).

(** ** The handler monad *)

Definition M (A : Type) : Type := World -> Completion A * World.

Definition ret {A} (a : A) : M A := fun w => (Normal a, w).

Definition bind {A B} (m : M A) (k : A -> M B) : M B :=
  fun w =>
    match m w with
    | (Normal a, w') => k a w'
    | (Throw e, w') => (Throw e, w')
    end.

Definition throw {A} (e : JsValue) : M A := fun w => (Throw e, w).

(** [try { m } catch (err) { h err }] *)
Definition tryCatch {A} (m : M A) (h : JsValue -> M A) : M A :=
  fun w =>
    match m w with
    | (Normal a, w') => (Normal a, w')
    | (Throw e, w') => h e w'
    end.

(** [try { m } finally { f }]: the completion of [m] stands unless [f]
    itself throws. *)
Definition tryFinally {A} (m : M A) (f : M unit) : M A :=
  fun w =>
    match m w with
    | (c, w') =>
        match f w' with
        | (Normal _, w'') => (c, w'')
        | (Throw e, w'') => (Throw e, w'')
        end
    end.

Definition liftOption {A} (e : JsValue) (o : option A) : M A :=
  match o with
  | Some a => ret a
  | None => throw e
  end.

Declare Scope js_scope.
Delimit Scope js_scope with js_m.
Notation "x <- m ;; k" := (bind m (fun x => k))
  (at level 61, m at next level, right associativity) : js_scope.
Notation "m ;; k" := (bind m (fun _ => k))
  (at level 61, right associativity) : js_scope.
Local Open Scope js_scope.

(** *** State cells and platform calls *)

Definition readState {A} (f : State -> A) : M A :=
  fun w => (Normal (f (react w)), w).

Definition setLoading (b : bool) : M unit :=
  fun w => (Normal tt,
    emit (EvSetLoading b)
      (with_react (fun s => {| url := url s; htmlContent := htmlContent s;
                               loading := b; error := error s;
                               lastFetchedUrl := lastFetchedUrl s |}) w)).

Definition setError (e : JsString) : M unit :=
  fun w => (Normal tt,
    emit (EvSetError e)
      (with_react (fun s => {| url := url s; htmlContent := htmlContent s;
                               loading := loading s; error := e;
                               lastFetchedUrl := lastFetchedUrl s |}) w)).

Definition setHtmlContent (h : JsString) : M unit :=
  fun w => (Normal tt,
    emit (EvSetHtmlContent h)
      (with_react (fun s => {| url := url s; htmlContent := h;
                               loading := loading s; error := error s;
                               lastFetchedUrl := lastFetchedUrl s |}) w)).

Definition setLastFetchedUrl (u : JsString) : M unit :=
  fun w => (Normal tt,
    emit (EvSetLastFetchedUrl u)
      (with_react (fun s => {| url := url s; htmlContent := htmlContent s;
                               loading := loading s; error := error s;
                               lastFetchedUrl := u |}) w)).

Definition consoleError (label : JsString) (v : JsValue) : M unit :=
  fun w => (Normal tt, emit (EvConsoleError label v) w).

Definition DateNow : M N := fun w => (Normal (clock w), w).

(** [new Blob(parts, { type })]: string parts are stored as UTF-8; a type
    with a character outside U+0020..U+007E is dropped, otherwise it is
    lower-cased. *)
Definition normalizeType (t : JsString) : JsString :=
  if forallb (fun c => (0x20 <=? c) && (c <=? 0x7E)) t
  then map UrlStd.toAsciiLower t else [].

Definition newBlob (parts : list JsString) (type : JsString) : Blob :=
  {| blob_bytes := flat_map utf8_encode parts;
     blob_type := normalizeType type |}.

Fixpoint lookupURL (u : JsString) (store : list (JsString * Blob)) : option Blob :=
  match store with
  | [] => None
  | (k, b) :: store' => if str_eqb k u then Some b else lookupURL u store'
  end.

Definition appendChild (a : Anchor) : M unit :=
  fun w => (Normal tt, emit (EvAppendChild a) w).

Definition removeChild (a : Anchor) : M unit :=
  fun w => (Normal tt, emit (EvRemoveChild a) w).

(** [a.click()] on an anchor with a [download] attribute: when its href
    is a live object URL, the blob behind it is saved under the suggested
    file name. *)
Definition click (a : Anchor) : M unit :=
  fun w =>
    let w' := emit (EvClick a) w in
    match lookupURL (href a) (objectURLs w') with
    | Some b =>
        (Normal tt,
         emit (EvDownload {| filename := download a;
                             mimeType := blob_type b;
                             bytes := blob_bytes b |}) w')
    | None => (Normal tt, w')
    end.

Definition revokeObjectURL (u : JsString) : M unit :=
  fun w => (Normal tt,
    emit (EvRevokeObjectURL u)
      (with_objectURLs (filter (fun p => negb (str_eqb (fst p) u))) w)).

(** ** What is rendered

    The parts of the returned JSX that depend on the state: the URL input,
    the submit button, the error banner, the "Fetched Content" block with
    its source line and Download button, and the preview frame. *)

Record Frame : Type := {
  srcDoc : JsString;
  sandbox : JsString
}.

Record View : Type := {
  inputValue : JsString;
  inputDisabled : bool;
  submitDisabled : bool;
  submitLabel : JsString;
  errorBanner : option JsString;
  fetchedBlock : option JsString;
  previewFrame : option Frame
}.

Definition render (s : State) : View :=
  {| inputValue := url s;
     inputDisabled := loading s;
     submitDisabled := loading s || negb (truthy (trim (url s)));
     submitLabel := if loading s then js "Loading..." else js "Fetch Page";
     errorBanner := if truthy (error s) then Some (error s) else None;
     fetchedBlock :=
       if truthy (htmlContent s)
       then Some (js "Source: " ++ lastFetchedUrl s) else None;
     previewFrame :=
       if truthy (htmlContent s)
       then Some {| srcDoc := htmlContent s; sandbox := js "allow-same-origin" |}
       else None |}.

(** ** A sample platform

    A small parser, scripted networks and an object URL generator, for
    running the handlers on concrete inputs.  The parser accepts every
    string with a scheme and keeps that scheme; the browser's parser
    rejects more (an empty host, a bad port), never less. *)

Module Sample.

Definition URL_new (s : JsString) : Completion URL :=
  match UrlStd.scan_scheme s with
  | Some sch => Normal {| scheme := sch |}
  | None => Throw (ErrorObject (js "Invalid URL"))
  end.

(** The [n]-th fetch settles to the [n]-th entry of the script;
    past its end every fetch is rejected. *)
Definition scripted (script : list (Completion Response))
  : nat -> Request -> Completion Response :=
  fun n _ => nth n script (Throw (ErrorObject (js "Failed to fetch"))).

Definition mintObjectURL (store : list (JsString * Blob)) : JsString :=
  js "blob:page-reader/" ++ number_to_string (N.of_nat (length store)).

(** The page at rest: URL typed in, no fetch in flight, nothing logged. *)
Definition idle (typed html last : JsString) : World :=
  {| react := {| url := typed; htmlContent := html; loading := false;
                 error := js ""; lastFetchedUrl := last |};
     log := [];
     objectURLs := [];
     clock := 1700000000000 |}.

Definition page (code : N) (body : string) : Completion Response :=
  Normal {| status := code; text := Normal (js body) |}.

Definition rejected (message : string) : Completion Response :=
  Throw (ErrorObject (js message)).

(** A 200 response whose body cannot be read to the end. *)
Definition truncated (message : string) : Completion Response :=
  Normal {| status := 200; text := Throw (ErrorObject (js message)) |}.

(** A network that settles every fetch the same way. *)
Definition always (c : Completion Response)
  : nat -> Request -> Completion Response :=
  fun _ _ => c.

(** Scripts for the three proxies of the component. *)
Definition busyThenPage : nat -> Request -> Completion Response :=
  scripted [page 503 "busy"; page 200 "<html>A</html>"].

Definition faultThenPage : nat -> Request -> Completion Response :=
  scripted [rejected "Failed to fetch"; page 200 "<html>B</html>"].

Definition fault : Completion Response :=
  rejected "NetworkError when attempting to fetch resource.".

Definition allFaults : nat -> Request -> Completion Response :=
  scripted [fault; fault; fault].

Definition busyThenFaults : nat -> Request -> Completion Response :=
  scripted [page 503 "busy"; fault; fault].

Definition bodyLost : nat -> Request -> Completion Response :=
  scripted [truncated "network error"].

Definition allBusy : nat -> Request -> Completion Response :=
  always (page 503 "Service Unavailable").

Definition target : JsString := js "https://example.com".
Definition encodedTarget : JsString := js "https%3A%2F%2Fexample.com".

(** The page with the target typed in and nothing fetched yet. *)
Definition fresh : World := idle target (js "") (js "").

(** The page showing an earlier fetch, with the target typed in. *)
Definition showing : World :=
  idle target (js "<p>old</p>") (js "https://old.example").

(** The page with an ftp URL typed in. *)
Definition typedFtp : World :=
  idle (js "ftp://example.com/file.txt") (js "") (js "").

(** The page holding a fetched snippet. *)
Definition holding : World := idle target (js "<p>x</p>") target.

(** The same rejections as [allFaults], with other errors. *)
Definition otherFaults : nat -> Request -> Completion Response :=
  scripted [rejected "Failed to fetch"; rejected "Load failed";
            rejected "timeout"].

Definition emptyPage : nat -> Request -> Completion Response :=
  scripted [page 200 ""].

(** A target that ends in an unpaired lead surrogate. *)
Definition surrogateTarget : JsString := js "https://example.com/" ++ [0xD800].

Definition typedSurrogate : World := idle surrogateTarget (js "") (js "").

(** An earlier fetch on screen, and an ftp URL typed in. *)
Definition showingTypedFtp : World :=
  idle (js "ftp://example.com/file.txt") (js "<p>old</p>")
       (js "https://old.example").

End Sample.

(** ** The component *)

Section PageReader.

(** The platform the component runs on. *)

(** [new URL(string)]: the parsed URL, or the TypeError it throws. *)
Variable URL_new : JsString -> Completion URL.

(** The parser follows the URL Standard on the scheme: a URL it returns
    carries the scheme the scheme states scan from the input. *)
Hypothesis URL_new_scheme :
  forall s u, URL_new s = Normal u -> UrlStd.scan_scheme s = Some (scheme u).

(** The network: what the [n]-th [fetch] call of the session (counting
    from 0) settles to when it carries the request [r]. *)
Variable net : nat -> Request -> Completion Response.

(** The object URL the browser mints, given the live ones. *)
Variable mintObjectURL : list (JsString * Blob) -> JsString.

Definition fetch (i : JsString) (m : JsString)
  (h : list (JsString * JsString)) : M Response :=
  fun w =>
    let r := {| input := i; method := m; headers := h |} in
    (net (fetchCount w) r, emit (EvFetch r) w).

Definition createObjectURL (b : Blob) : M JsString :=
  fun w =>
    let u := mintObjectURL (objectURLs w) in
    (Normal u,
     emit (EvCreateObjectURL b u) (with_objectURLs (cons (u, b)) w)).

Definition corsProxies : list JsString :=
  [ js "https://api.allorigins.win/raw?url=";
    js "https://cors-anywhere.herokuapp.com/";
    js "https://corsproxy.io/?" ].

Definition isValidUrl (string : JsString) : bool :=
  match URL_new string with
  | Normal newUrl =>
      str_eqb (protocol newUrl) (js "http:")
      || str_eqb (protocol newUrl) (js "https:")
  | Throw err => false
  end.

Definition userAgent : JsString :=
  js "Mozilla/5.0 (Windows NT 10.0; Win64; x64) AppleWebKit/537.36".

(** The request sent to [proxy] for a target whose encoding is [encoded]. *)
Definition proxyRequest (encoded proxy : JsString) : Request :=
  {| input := proxy ++ encoded;
     method := js "GET";
     headers := [(js "User-Agent", userAgent)] |}.

(** The characters [encodeURIComponent] can produce: the unreserved set
    and the percent sign. *)
Definition isEncodedChar (c : CodeUnit) : bool :=
  uriUnreserved c || (c =? 0x25).

(** The two locals of the [try] block. *)
Record Locals : Type := {
  response : option Response;
  lastError : option JsValue
}.

Inductive Control : Type := Break | Continue.

(** One turn of [for (const proxy of corsProxies)]: the inner [try] with
    its [catch]. *)
Definition attempt (target proxy : JsString) (v : Locals) : M (Control * Locals) :=
  tryCatch
    (encoded <- liftOption (ErrorObject (js "URI malformed"))
                           (encodeURIComponent target) ;;
     let proxyUrl := proxy ++ encoded in
     r <- fetch proxyUrl (js "GET") [(js "User-Agent", userAgent)] ;;
     let v' := {| response := Some r; lastError := lastError v |} in
     if ok r then ret (Break, v') else ret (Continue, v'))
    (fun err =>
       ret (Continue, {| response := response v; lastError := Some err |})).

Fixpoint proxyLoop (target : JsString) (proxies : list JsString) (v : Locals)
  : M Locals :=
  match proxies with
  | [] => ret v
  | proxy :: rest =>
      cv <- attempt target proxy v ;;
      match fst cv with
      | Break => ret (snd cv)
      | Continue => proxyLoop target rest (snd cv)
      end
  end.

(** [response?.status || 'Network error'] inside the template literal. *)
Definition statusOrNetworkError (r : option Response) : JsString :=
  match r with
  | None => js "Network error"
  | Some r => if status r =? 0 then js "Network error"
              else number_to_string (status r)
  end.

Definition failurePrefix : JsString :=
  js "Failed to fetch page content. This might be due to CORS restrictions or the page being unavailable. Error: ".

Definition errorMessage (err : JsValue) : JsString :=
  match err with
  | ErrorObject message => message
  | NonError => js "Unknown error"
  end.

(** [fetchPageContent], with the proxy list taken as an argument. *)
Definition fetchPageContentVia (proxies : list JsString) : M unit :=
  url <- readState url ;;
  if negb (truthy (trim url)) then
    setError (js "Please enter a valid URL")
  else if negb (isValidUrl url) then
    setError (js "Please enter a valid HTTP/HTTPS URL")
  else
    setLoading true ;;
    setError (js "") ;;
    setHtmlContent (js "") ;;
    tryFinally
      (tryCatch
         (v <- proxyLoop url proxies
                 {| response := None; lastError := None |} ;;
          match response v with
          | Some r =>
              if ok r then
                html <- (fun w => (text r, w)) ;;
                setHtmlContent html ;;
                setLastFetchedUrl url
              else
                throw (ErrorObject (js "Failed to fetch: "
                                      ++ statusOrNetworkError (response v)))
          | None =>
              throw (ErrorObject (js "Failed to fetch: "
                                    ++ statusOrNetworkError (response v)))
          end)
         (fun err =>
            consoleError (js "Error fetching page:") err ;;
            setError (failurePrefix ++ errorMessage err)))
      (setLoading false).

Definition fetchPageContent : M unit := fetchPageContentVia corsProxies.

Definition downloadHtml : M unit :=
  htmlContent <- readState htmlContent ;;
  if negb (truthy htmlContent) then ret tt
  else
    let blob := newBlob [htmlContent] (js "text/html") in
    url <- createObjectURL blob ;;
    now <- DateNow ;;
    let a := {| href := url;
                download := js "page-" ++ number_to_string now ++ js ".html" |} in
    appendChild a ;;
    click a ;;
    removeChild a ;;
    revokeObjectURL url.

(** *** What the page shows

    The JSX renders the error banner when [error] is non-empty and the
    preview with its source line from [htmlContent] and [lastFetchedUrl];
    this is the outcome a caller of the fetch observes. *)
Inductive FetchOutcome : Type :=
| Success (html sourceUrl : JsString)
| Failure (reason : JsString).

Definition outcome (s : State) : FetchOutcome :=
  if truthy (error s) then Failure (error s)
  else Success (htmlContent s) (lastFetchedUrl s).

(** *** The loop read off the network

    [walk encoded n proxies v] follows the proxies from the [n]-th fetch
    of the session on: the locals the loop ends with and the requests it
    sends. *)
Fixpoint walk (encoded : JsString) (n : nat) (proxies : list JsString)
  (v : Locals) : Locals * list Request :=
  match proxies with
  | [] => (v, [])
  | proxy :: rest =>
      let rq := proxyRequest encoded proxy in
      match net n rq with
      | Normal r =>
          let v' := {| response := Some r; lastError := lastError v |} in
          if ok r then (v', [rq])
          else (fst (walk encoded (S n) rest v'),
                rq :: snd (walk encoded (S n) rest v'))
      | Throw e =>
          let v' := {| response := response v; lastError := Some e |} in
          (fst (walk encoded (S n) rest v'),
           rq :: snd (walk encoded (S n) rest v'))
      end
  end.

(** An attempt that does not end the loop: a rejected fetch or a response
    that is not ok. *)
Definition failed (c : Completion Response) : Prop :=
  match c with
  | Normal r => ok r = false
  | Throw _ => True
  end.

(** Every proxy of [ps], tried from the [n]-th fetch on, fails. *)
Definition all_failed (encoded : JsString) (n : nat) (ps : list JsString) : Prop :=
  forall i q, nth_error ps i = Some q ->
    failed (net (n + i)%nat (proxyRequest encoded q)).

(** Every proxy of [ps], tried from the [n]-th fetch on, is rejected. *)
Definition all_rejected (encoded : JsString) (n : nat) (ps : list JsString)
  : Prop :=
  forall i q, nth_error ps i = Some q ->
    exists e, net (n + i)%nat (proxyRequest encoded q) = Throw e.

(** The world [downloadHtml] leaves when there is HTML to save. *)
Definition afterDownload (w : World) : World :=
  let blob := newBlob [htmlContent (react w)] (js "text/html") in
  let u := mintObjectURL (objectURLs w) in
  let a := {| href := u;
              download := js "page-" ++ number_to_string (clock w)
                          ++ js ".html" |} in
  {| react := react w;
     log := log w
            ++ [EvCreateObjectURL blob u; EvAppendChild a; EvClick a;
                EvDownload {| filename := download a;
                              mimeType := blob_type blob;
                              bytes := blob_bytes blob |};
                EvRemoveChild a; EvRevokeObjectURL u];
     objectURLs := filter (fun p => negb (str_eqb (fst p) u))
                          ((u, blob) :: objectURLs w);
     clock := clock w |}.

(** Two networks that answer alike and only differ in the errors their
    rejected fetches carry. *)
Definition same_responses (net' : nat -> Request -> Completion Response)
  : Prop :=
  forall n rq,
    match net n rq, net' n rq with
    | Normal a, Normal b => a = b
    | Throw _, Throw _ => True
    | _, _ => False
    end.

(** The URL passes both guards of [fetchPageContent]. *)
Definition passes_validation (u : JsString) : Prop :=
  truthy (trim u) = true /\ isValidUrl u = true.

(** *** Where an invocation that passed validation ends

    [finish w sent html err last tail]: the world once the handler is
    done, having sent [sent] and closed with the effects [tail]. *)
Definition finish (w : World) (sent : list Request)
  (html err last : JsString) (tail : list Event) : World :=
  {| react := {| url := url (react w); htmlContent := html; loading := false;
                 error := err; lastFetchedUrl := last |};
     log := log w
            ++ [EvSetLoading true; EvSetError (js ""); EvSetHtmlContent (js "")]
            ++ map EvFetch sent ++ tail ++ [EvSetLoading false];
     objectURLs := objectURLs w;
     clock := clock w |}.

Definition finish_success (w : World) (sent : list Request) (html : JsString)
  : World :=
  finish w sent html (js "") (url (react w))
    [EvSetHtmlContent html; EvSetLastFetchedUrl (url (react w))].

Definition finish_failure (w : World) (sent : list Request) (err : JsValue)
  : World :=
  finish w sent (js "") (failurePrefix ++ errorMessage err)
    (lastFetchedUrl (react w))
    [EvConsoleError (js "Error fetching page:") err;
     EvSetError (failurePrefix ++ errorMessage err)].

(** The error thrown when the loop ends without an ok response. *)
Definition notFetched (kept : option Response) : JsValue :=
  ErrorObject (js "Failed to fetch: " ++ statusOrNetworkError kept).

(** The response the loop ends with and the requests it sent. *)
Definition loopEnd (target : JsString) (n : nat) (proxies : list JsString)
  : option Response * list Request :=
  match encodeURIComponent target with
  | Some encoded =>
      (response (fst (walk encoded n proxies
                        {| response := None; lastError := None |})),
       snd (walk encoded n proxies {| response := None; lastError := None |}))
  | None => (None, [])
  end.

Definition settle (w : World) (kept : option Response) (sent : list Request)
  : World :=
  match kept with
  | Some r =>
      if ok r then
        match text r with
        | Normal html => finish_success w sent html
        | Throw e => finish_failure w sent e
        end
      else finish_failure w sent (notFetched kept)
  | None => finish_failure w sent (notFetched kept)
  end.

(** ** Strings: basic facts *)

Lemma str_eqb_eq (a b : JsString) : str_eqb a b = true <-> a = b.
Proof.
  revert b; induction a as [|x a IH]; intros [|y b]; simpl.
  - split; reflexivity.
  - split; discriminate.
  - split; discriminate.
  - rewrite andb_true_iff, N.eqb_eq, IH. split.
    + intros [Hx Ha]. subst. reflexivity.
    + intros H. injection H as Hx Ha. auto.
Qed.

Lemma str_eqb_refl (a : JsString) : str_eqb a a = true.
Proof. apply str_eqb_eq. reflexivity. Qed.

Lemma trimStart_blank (s : JsString) :
  forallb isWhiteSpace s = true -> trimStart s = [].
Proof.
  induction s as [|c s IH]; simpl; [reflexivity|].
  intros H. apply andb_true_iff in H as [Hc Hs]. rewrite Hc. auto.
Qed.

(** A string of white space only trims to the empty string. *)
Lemma trim_blank (s : JsString) :
  forallb isWhiteSpace s = true -> trim s = [].
Proof.
  intros H. unfold trim, trimEnd. rewrite (trimStart_blank s H). reflexivity.
Qed.

(** The primitives on known values. *)

Example encodeURIComponent_reserved :
  encodeURIComponent (js "https://example.com/a b?q=1&x=y")
  = Some (js "https%3A%2F%2Fexample.com%2Fa%20b%3Fq%3D1%26x%3Dy").
Proof. reflexivity. Qed.

(** U+20AC, then U+1F600 as a surrogate pair. *)
Example encodeURIComponent_astral :
  encodeURIComponent [0x20AC; 0xD83D; 0xDE00]
  = Some (js "%E2%82%AC%F0%9F%98%80").
Proof. reflexivity. Qed.

Example encodeURIComponent_lone_surrogate :
  encodeURIComponent (js "http://a/" ++ [0xD800]) = None.
Proof. reflexivity. Qed.

Example utf8_encode_replaces_lone_surrogate :
  utf8_encode [0x20AC; 0xD83D; 0xDE00; 0xD800]
  = [0xE2; 0x82; 0xAC; 0xF0; 0x9F; 0x98; 0x80; 0xEF; 0xBF; 0xBD].
Proof. reflexivity. Qed.

Example trim_both_ends : trim (js "  a b  ") = js "a b".
Proof. reflexivity. Qed.

Example scan_scheme_lowercases :
  UrlStd.scan_scheme (js "  HTTPS://Example.com ") = Some (js "https").
Proof. reflexivity. Qed.

Example scan_scheme_needs_colon : UrlStd.scan_scheme (js "example.com") = None.
Proof. reflexivity. Qed.

(** ** The effect log *)

Lemma emit_all_nil (w : World) : emit_all [] w = w.
Proof. destruct w; unfold emit_all; simpl. rewrite app_nil_r. reflexivity. Qed.

Lemma emit_all_app (es1 es2 : list Event) (w : World) :
  emit_all es2 (emit_all es1 w) = emit_all (es1 ++ es2) w.
Proof. unfold emit_all; simpl. rewrite app_assoc. reflexivity. Qed.

Lemma requests_of_app (l1 l2 : list Event) :
  requests_of (l1 ++ l2) = requests_of l1 ++ requests_of l2.
Proof.
  induction l1 as [|e l1 IH]; simpl; [reflexivity|].
  destruct e; simpl; rewrite IH; reflexivity.
Qed.

Lemma requests_of_fetches (rs : list Request) :
  requests_of (map EvFetch rs) = rs.
Proof. induction rs; simpl; congruence. Qed.

Lemma downloads_of_app (l1 l2 : list Event) :
  downloads_of (l1 ++ l2) = downloads_of l1 ++ downloads_of l2.
Proof.
  induction l1 as [|e l1 IH]; simpl; [reflexivity|].
  destruct e; simpl; rewrite IH; reflexivity.
Qed.

Lemma fetchCount_emit_fetches (rs : list Request) (w : World) :
  fetchCount (emit_all (map EvFetch rs) w) = (fetchCount w + length rs)%nat.
Proof.
  unfold fetchCount, emit_all; simpl.
  rewrite requests_of_app, requests_of_fetches, length_app. reflexivity.
Qed.

(** ** The proxy loop *)

Lemma fetchCount_emit_fetch (rq : Request) (w : World) :
  fetchCount (emit (EvFetch rq) w) = S (fetchCount w).
Proof.
  change (emit (EvFetch rq) w) with (emit_all (map EvFetch [rq]) w).
  rewrite fetchCount_emit_fetches. simpl. apply Nat.add_1_r.
Qed.

(** One turn of the loop when the target can be encoded: the request goes
    out, and the loop breaks exactly on an ok response. *)
Lemma attempt_encoded (target encoded proxy : JsString) (v : Locals) (w : World) :
  encodeURIComponent target = Some encoded ->
  attempt target proxy v w =
    (Normal
       match net (fetchCount w) (proxyRequest encoded proxy) with
       | Normal r =>
           (if ok r then Break else Continue,
            {| response := Some r; lastError := lastError v |})
       | Throw e =>
           (Continue, {| response := response v; lastError := Some e |})
       end,
     emit (EvFetch (proxyRequest encoded proxy)) w).
Proof.
  intros He. unfold attempt, tryCatch, bind, liftOption, fetch, ret.
  rewrite He. fold (proxyRequest encoded proxy).
  destruct (net (fetchCount w) (proxyRequest encoded proxy)) as [r|e];
    [destruct (ok r)|]; reflexivity.
Qed.

(** One turn when the target holds an unpaired surrogate: the URIError is
    caught before any request is made. *)
Lemma attempt_unencodable (target proxy : JsString) (v : Locals) (w : World) :
  encodeURIComponent target = None ->
  attempt target proxy v w =
    (Normal (Continue,
             {| response := response v;
                lastError := Some (ErrorObject (js "URI malformed")) |}),
     w).
Proof.
  intros He. unfold attempt, tryCatch, bind, liftOption, throw, ret.
  rewrite He. reflexivity.
Qed.

(** The loop never throws; it sends the requests [walk] lists and ends
    with the locals [walk] computes. *)
Lemma proxyLoop_walk (target encoded : JsString) :
  encodeURIComponent target = Some encoded ->
  forall proxies v w,
    proxyLoop target proxies v w =
      (Normal (fst (walk encoded (fetchCount w) proxies v)),
       emit_all (map EvFetch (snd (walk encoded (fetchCount w) proxies v))) w).
Proof.
  intros He proxies.
  induction proxies as [|proxy rest IH]; intros v w; simpl.
  - unfold ret. rewrite emit_all_nil. reflexivity.
  - unfold bind at 1. rewrite (attempt_encoded _ _ _ _ _ He).
    destruct (net (fetchCount w) (proxyRequest encoded proxy)) as [r|e].
    + destruct (ok r); simpl.
      * reflexivity.
      * rewrite IH, fetchCount_emit_fetch. unfold emit.
        rewrite emit_all_app. reflexivity.
    + simpl. rewrite IH, fetchCount_emit_fetch. unfold emit.
      rewrite emit_all_app. reflexivity.
Qed.

Lemma proxyLoop_unencodable (target : JsString) :
  encodeURIComponent target = None ->
  forall proxies v w,
    proxyLoop target proxies v w =
      (Normal match proxies with
              | [] => v
              | _ :: _ =>
                  {| response := response v;
                     lastError := Some (ErrorObject (js "URI malformed")) |}
              end,
       w).
Proof.
  intros He proxies.
  induction proxies as [|proxy rest IH]; intros v w; simpl.
  - reflexivity.
  - unfold bind at 1. rewrite (attempt_unencodable _ _ _ _ He). simpl.
    rewrite IH. destruct rest; reflexivity.
Qed.

(** *** Facts about [walk] *)

Lemma all_failed_cons (encoded : JsString) (n : nat) (q : JsString)
  (ps : list JsString) :
  all_failed encoded n (q :: ps) <->
  failed (net n (proxyRequest encoded q)) /\ all_failed encoded (S n) ps.
Proof.
  unfold all_failed. split.
  - intros H. split.
    + specialize (H 0%nat q eq_refl). rewrite Nat.add_0_r in H. exact H.
    + intros i p Hp. specialize (H (S i) p Hp).
      rewrite Nat.add_succ_r in H. exact H.
  - intros [H0 Hs] [|i] p Hp; simpl in Hp.
    + injection Hp as <-. rewrite Nat.add_0_r. exact H0.
    + rewrite Nat.add_succ_r. apply (Hs i p Hp).
Qed.

Lemma all_failed_nil (encoded : JsString) (n : nat) : all_failed encoded n [].
Proof. intros [|i] q H; discriminate H. Qed.

(** The requests sent are those of an initial segment of the list, in
    order. *)
Lemma walk_requests_prefix (encoded : JsString) (proxies : list JsString) :
  forall n v, exists k,
    snd (walk encoded n proxies v)
    = map (proxyRequest encoded) (firstn k proxies).
Proof.
  induction proxies as [|p rest IH]; intros n v; simpl.
  - exists 0%nat. reflexivity.
  - destruct (net n (proxyRequest encoded p)) as [r|e].
    + destruct (ok r); simpl.
      * exists 1%nat. reflexivity.
      * destruct (IH (S n) {| response := Some r; lastError := lastError v |})
          as [k Hk].
        exists (S k). simpl. rewrite Hk. reflexivity.
    + destruct (IH (S n) {| response := response v; lastError := Some e |})
        as [k Hk].
      exists (S k). simpl. rewrite Hk. reflexivity.
Qed.

(** The loop stops at the first proxy that answers ok. *)
Lemma walk_first_ok (encoded : JsString) (pre : list JsString) :
  forall n v p post r,
    all_failed encoded n pre ->
    net (n + length pre)%nat (proxyRequest encoded p) = Normal r ->
    ok r = true ->
    response (fst (walk encoded n (pre ++ p :: post) v)) = Some r /\
    snd (walk encoded n (pre ++ p :: post) v)
    = map (proxyRequest encoded) (pre ++ [p]).
Proof.
  induction pre as [|q pre IH]; intros n v p post r Hpre Hp Hok; simpl.
  - simpl in Hp. rewrite Nat.add_0_r in Hp. rewrite Hp, Hok. simpl. auto.
  - apply all_failed_cons in Hpre as [Hq Hpre].
    simpl in Hp. rewrite Nat.add_succ_r in Hp.
    destruct (net n (proxyRequest encoded q)) as [rq|e]; simpl in Hq.
    + rewrite Hq. simpl.
      destruct (IH (S n) {| response := Some rq; lastError := lastError v |}
                   p post r Hpre Hp Hok) as [H1 H2].
      rewrite H1, H2. auto.
    + simpl.
      destruct (IH (S n) {| response := response v; lastError := Some e |}
                   p post r Hpre Hp Hok) as [H1 H2].
      rewrite H1, H2. auto.
Qed.

(** When every proxy fails, each one is asked once and the response kept
    is not ok. *)
Lemma walk_all_failed (encoded : JsString) (proxies : list JsString) :
  forall n v,
    all_failed encoded n proxies ->
    (forall r, response v = Some r -> ok r = false) ->
    snd (walk encoded n proxies v) = map (proxyRequest encoded) proxies /\
    (forall r, response (fst (walk encoded n proxies v)) = Some r ->
               ok r = false).
Proof.
  induction proxies as [|p rest IH]; intros n v Hall Hv; simpl.
  - auto.
  - apply all_failed_cons in Hall as [Hp Hall].
    destruct (net n (proxyRequest encoded p)) as [r|e]; simpl in Hp.
    + rewrite Hp. simpl.
      destruct (IH (S n) {| response := Some r; lastError := lastError v |} Hall)
        as [H1 H2].
      { simpl. intros r' Hr'. injection Hr' as <-. exact Hp. }
      rewrite H1. auto.
    + simpl.
      destruct (IH (S n) {| response := response v; lastError := Some e |} Hall)
        as [H1 H2]; [exact Hv|].
      rewrite H1. auto.
Qed.

(** Either some proxy is the first to answer ok, or all of them fail. *)
Lemma first_ok_or_all_failed (encoded : JsString) (proxies : list JsString) :
  forall n,
    (exists pre p post r,
        proxies = pre ++ p :: post /\
        all_failed encoded n pre /\
        net (n + length pre)%nat (proxyRequest encoded p) = Normal r /\
        ok r = true)
    \/ all_failed encoded n proxies.
Proof.
  induction proxies as [|q rest IH]; intros n.
  - right. apply all_failed_nil.
  - destruct (net n (proxyRequest encoded q)) as [r|e] eqn:Hq.
    + destruct (ok r) eqn:Hok.
      * left. exists [], q, rest, r. simpl. rewrite Nat.add_0_r.
        repeat split; auto using all_failed_nil.
      * destruct (IH (S n)) as [(pre & p & post & r' & -> & Hpre & Hp & Hr')|Hall].
        -- left. exists (q :: pre), p, post, r'. simpl.
           rewrite Nat.add_succ_r. repeat split; auto.
           apply all_failed_cons. rewrite Hq. simpl. auto.
        -- right. apply all_failed_cons. rewrite Hq. simpl. auto.
    + destruct (IH (S n)) as [(pre & p & post & r' & -> & Hpre & Hp & Hr')|Hall].
      * left. exists (q :: pre), p, post, r'. simpl.
        rewrite Nat.add_succ_r. repeat split; auto.
        apply all_failed_cons. rewrite Hq. simpl. auto.
      * right. apply all_failed_cons. rewrite Hq. simpl. auto.
Qed.

(** ** The whole handler *)

(** Both sides are evaluated innermost first, so that each setter acts
    on an already reduced record. *)
Ltac same_world :=
  cbv beta iota delta
    [finish_success finish_failure finish emit emit_all with_react
     react log objectURLs clock url htmlContent loading error lastFetchedUrl];
  repeat rewrite <- app_assoc; cbn [app]; reflexivity.

(** An invocation that passes validation returns normally, in the world
    [settle] describes. *)
Lemma fetchPageContentVia_run (proxies : list JsString) (w : World) :
  passes_validation (url (react w)) ->
  fetchPageContentVia proxies w =
    (Normal tt,
     settle w (fst (loopEnd (url (react w)) (fetchCount w) proxies))
              (snd (loopEnd (url (react w)) (fetchCount w) proxies))).
Proof.
  intros [Htrim Hvalid].
  unfold fetchPageContentVia, readState, bind.
  rewrite Htrim, Hvalid. cbv beta iota delta [negb].
  unfold tryFinally, tryCatch, setLoading, setError, setHtmlContent,
    setLastFetchedUrl, consoleError, bind.
  cbv beta.
  set (w3 := emit (EvSetHtmlContent (js "")) _).
  assert (Hn : fetchCount w3 = fetchCount w).
  { unfold w3, fetchCount, emit, emit_all, with_react; simpl.
    repeat rewrite requests_of_app. simpl. repeat rewrite app_nil_r.
    reflexivity. }
  unfold loopEnd.
  destruct (encodeURIComponent (url (react w))) as [encoded|] eqn:He.
  - rewrite (proxyLoop_walk _ _ He), Hn.
    set (wk := walk encoded (fetchCount w) proxies _).
    unfold settle. simpl fst. simpl snd.
    destruct (response (fst wk)) as [r|] eqn:Hr.
    + destruct (ok r) eqn:Hok.
      * destruct (text r) as [html|e] eqn:Ht.
        -- unfold w3. same_world.
        -- unfold w3. same_world.
      * unfold throw, notFetched. unfold w3. same_world.
    + unfold throw, notFetched. unfold w3. same_world.
  - rewrite (proxyLoop_unencodable _ He).
    unfold settle. simpl fst. simpl snd.
    destruct proxies; cbv beta iota delta [response];
      unfold throw, notFetched; unfold w3; same_world.
Qed.

Lemma fetchPageContentVia_normal (proxies : list JsString) (w : World) :
  passes_validation (url (react w)) ->
  fst (fetchPageContentVia proxies w) = Normal tt.
Proof. intros H. rewrite (fetchPageContentVia_run _ _ H). reflexivity. Qed.

Lemma requests_of_finish (w : World) (sent : list Request)
  (html err last : JsString) (tail : list Event) :
  requests_of tail = [] ->
  requests_of (log (finish w sent html err last tail))
  = requests_of (log w) ++ sent.
Proof.
  intros Ht. unfold finish; cbn [log].
  rewrite !requests_of_app, requests_of_fetches, Ht.
  cbn [requests_of app]. rewrite app_nil_r. reflexivity.
Qed.

Lemma failurePrefix_truthy (m : JsString) : truthy (failurePrefix ++ m) = true.
Proof. reflexivity. Qed.

Lemma outcome_finish_success (w : World) (sent : list Request) (html : JsString) :
  outcome (react (finish_success w sent html)) = Success html (url (react w)).
Proof. reflexivity. Qed.

Lemma outcome_finish_failure (w : World) (sent : list Request) (err : JsValue) :
  outcome (react (finish_failure w sent err))
  = Failure (failurePrefix ++ errorMessage err).
Proof.
  unfold outcome, finish_failure, finish; cbn [react error].
  rewrite failurePrefix_truthy. reflexivity.
Qed.

(** The world after the first ok response: only the proxies up to it were
    asked, and what follows depends on reading the body. *)
Lemma run_first_ok (w : World) (pre post : list JsString) (p encoded : JsString)
  (r : Response) :
  passes_validation (url (react w)) ->
  encodeURIComponent (url (react w)) = Some encoded ->
  all_failed encoded (fetchCount w) pre ->
  net (fetchCount w + length pre)%nat (proxyRequest encoded p) = Normal r ->
  ok r = true ->
  snd (fetchPageContentVia (pre ++ p :: post) w) =
    match text r with
    | Normal html =>
        finish_success w (map (proxyRequest encoded) (pre ++ [p])) html
    | Throw e =>
        finish_failure w (map (proxyRequest encoded) (pre ++ [p])) e
    end.
Proof.
  intros Hv He Hpre Hp Hok.
  rewrite (fetchPageContentVia_run _ _ Hv). unfold loopEnd. rewrite He.
  destruct (walk_first_ok encoded pre (fetchCount w)
              {| response := None; lastError := None |} p post r Hpre Hp Hok)
    as [Hk Hs].
  simpl. rewrite Hk, Hs. unfold settle. rewrite Hok. reflexivity.
Qed.

(** The world after every proxy failed: each was asked once, and the
    message is built from the response the loop kept. *)
Lemma run_all_failed (w : World) (proxies : list JsString) (encoded : JsString) :
  passes_validation (url (react w)) ->
  encodeURIComponent (url (react w)) = Some encoded ->
  all_failed encoded (fetchCount w) proxies ->
  snd (fetchPageContentVia proxies w) =
    finish_failure w (map (proxyRequest encoded) proxies)
      (notFetched (fst (loopEnd (url (react w)) (fetchCount w) proxies))).
Proof.
  intros Hv He Hall.
  rewrite (fetchPageContentVia_run _ _ Hv). unfold loopEnd. rewrite He.
  destruct (walk_all_failed encoded proxies (fetchCount w)
              {| response := None; lastError := None |} Hall)
    as [Hs Hk]; [discriminate|].
  simpl. rewrite Hs. unfold settle.
  destruct (response (fst (walk encoded (fetchCount w) proxies
                             {| response := None; lastError := None |})))
    as [r|] eqn:Hr; [|reflexivity].
  rewrite (Hk r eq_refl). reflexivity.
Qed.

(** With an unpaired surrogate in the target no request is made at all. *)
Lemma run_unencodable (w : World) (proxies : list JsString) :
  passes_validation (url (react w)) ->
  encodeURIComponent (url (react w)) = None ->
  snd (fetchPageContentVia proxies w) = finish_failure w [] (notFetched None).
Proof.
  intros Hv He.
  rewrite (fetchPageContentVia_run _ _ Hv). unfold loopEnd. rewrite He.
  reflexivity.
Qed.

(** When every proxy answers with the same status outside 200-299, the
    loop keeps a response with that status. *)
Lemma walk_keeps_status (encoded : JsString) (code : N) (proxies : list JsString) :
  (200 <=? code) && (code <=? 299) = false ->
  forall n v,
    (forall i q, nth_error proxies i = Some q ->
       exists r, net (n + i)%nat (proxyRequest encoded q) = Normal r
                 /\ status r = code) ->
    (proxies = [] -> exists r, response v = Some r /\ status r = code) ->
    exists r, response (fst (walk encoded n proxies v)) = Some r
              /\ status r = code.
Proof.
  intros Hcode.
  induction proxies as [|p rest IH]; intros n v Hall Hv; simpl.
  - apply Hv. reflexivity.
  - destruct (Hall 0%nat p eq_refl) as (r & Hr & Hs).
    rewrite Nat.add_0_r in Hr. rewrite Hr.
    assert (Hok : ok r = false) by (unfold ok; rewrite Hs; exact Hcode).
    rewrite Hok. simpl. apply IH.
    + intros i q Hq. destruct (Hall (S i) q Hq) as (r' & Hr' & Hs').
      rewrite Nat.add_succ_r in Hr'. eauto.
    + intros _. exists r. auto.
Qed.

(** ** Validation *)

Lemma protocol_is (u : URL) (sch : JsString) :
  str_eqb (protocol u) (sch ++ js ":") = true <-> scheme u = sch.
Proof.
  unfold protocol. rewrite str_eqb_eq. split.
  - apply app_inv_tail.
  - intros ->. reflexivity.
Qed.

Lemma isValidUrl_true_iff (s : JsString) :
  isValidUrl s = true <->
  exists u, URL_new s = Normal u
            /\ (scheme u = js "http" \/ scheme u = js "https").
Proof.
  unfold isValidUrl. destruct (URL_new s) as [u|e].
  - rewrite orb_true_iff.
    change (js "http:") with (js "http" ++ js ":").
    change (js "https:") with (js "https" ++ js ":").
    rewrite !protocol_is. split.
    + intros H. exists u. auto.
    + intros (u' & Hu & H). injection Hu as <-. exact H.
  - split; [discriminate|]. intros (u & Hu & _). discriminate Hu.
Qed.

Lemma isValidUrl_other_scheme (s sch : JsString) :
  UrlStd.scan_scheme s = Some sch ->
  sch <> js "http" -> sch <> js "https" ->
  isValidUrl s = false.
Proof.
  intros Hs H1 H2. destruct (isValidUrl s) eqn:Hv; [|reflexivity].
  apply isValidUrl_true_iff in Hv as (u & Hu & Hsch).
  apply URL_new_scheme in Hu. rewrite Hs in Hu. injection Hu as ->.
  destruct Hsch; contradiction.
Qed.

Lemma isValidUrl_no_scheme (s : JsString) :
  UrlStd.scan_scheme s = None -> isValidUrl s = false.
Proof.
  intros Hs. destruct (isValidUrl s) eqn:Hv; [|reflexivity].
  apply isValidUrl_true_iff in Hv as (u & Hu & _).
  apply URL_new_scheme in Hu. rewrite Hs in Hu. discriminate Hu.
Qed.

Lemma isValidUrl_accepted (s sch : JsString) :
  UrlStd.scan_scheme s = Some sch ->
  sch = js "http" \/ sch = js "https" ->
  (exists u, URL_new s = Normal u) ->
  isValidUrl s = true.
Proof.
  intros Hs Hsch (u & Hu). apply isValidUrl_true_iff. exists u. split; [exact Hu|].
  apply URL_new_scheme in Hu. rewrite Hs in Hu. injection Hu as <-. exact Hsch.
Qed.

(** C3. [isValidUrl] answers [true] exactly when the input parses and
    the parsed scheme is [http] or [https]; a parse failure gives [false]
    as an ordinary value.  Hence inputs without a scheme ("not a url", the
    empty string) and inputs with another scheme (ftp, file) give [false],
    and "https://example.com" and "http://example.com/path?q=1" give
    [true] as soon as the parser accepts them. *)
Theorem isValidUrl_http_or_https (s : JsString) :
  (isValidUrl s = true <->
   exists u, URL_new s = Normal u
             /\ (scheme u = js "http" \/ scheme u = js "https"))
  /\ (forall e, URL_new s = Throw e -> isValidUrl s = false)
  /\ (UrlStd.scan_scheme s = None -> isValidUrl s = false)
  /\ (forall sch, UrlStd.scan_scheme s = Some sch ->
        sch <> js "http" -> sch <> js "https" -> isValidUrl s = false)
  /\ isValidUrl (js "not a url") = false
  /\ isValidUrl (js "") = false
  /\ isValidUrl (js "ftp://example.com/file.txt") = false
  /\ isValidUrl (js "file:///etc/hosts") = false
  /\ ((exists u, URL_new (js "https://example.com") = Normal u) ->
      isValidUrl (js "https://example.com") = true)
  /\ ((exists u, URL_new (js "http://example.com/path?q=1") = Normal u) ->
      isValidUrl (js "http://example.com/path?q=1") = true).
Proof.
  split; [apply isValidUrl_true_iff|].
  split; [intros e He; unfold isValidUrl; rewrite He; reflexivity|].
  split; [apply isValidUrl_no_scheme|].
  split; [intros sch; apply isValidUrl_other_scheme|].
  split; [apply isValidUrl_no_scheme; reflexivity|].
  split; [apply isValidUrl_no_scheme; reflexivity|].
  split; [apply (isValidUrl_other_scheme _ (js "ftp"));
          [reflexivity | discriminate | discriminate]|].
  split; [apply (isValidUrl_other_scheme _ (js "file"));
          [reflexivity | discriminate | discriminate]|].
  split.
  - apply (isValidUrl_accepted _ (js "https")); [reflexivity | auto].
  - apply (isValidUrl_accepted _ (js "http")); [reflexivity | auto].
Qed.

(** ** Fetching through the proxies *)

(** C1. When some proxy is the first in order to answer with an ok
    response whose body reads as [B], the handler returns normally, the
    page shows Success with html [B] and the target URL as its source, and
    the requests sent are those to the proxies up to and including that
    one: no later proxy is asked. *)
Theorem first_ok_proxy_wins (w : World) (pre post : list JsString)
  (p encoded : JsString) (r : Response) (B : JsString) :
  passes_validation (url (react w)) ->
  encodeURIComponent (url (react w)) = Some encoded ->
  all_failed encoded (fetchCount w) pre ->
  net (fetchCount w + length pre)%nat (proxyRequest encoded p) = Normal r ->
  ok r = true ->
  text r = Normal B ->
  fst (fetchPageContentVia (pre ++ p :: post) w) = Normal tt
  /\ outcome (react (snd (fetchPageContentVia (pre ++ p :: post) w)))
     = Success B (url (react w))
  /\ requests_of (log (snd (fetchPageContentVia (pre ++ p :: post) w)))
     = requests_of (log w) ++ map (proxyRequest encoded) (pre ++ [p]).
Proof.
  intros Hv He Hpre Hp Hok Ht.
  split; [apply fetchPageContentVia_normal; exact Hv|].
  rewrite (run_first_ok w pre post p encoded r Hv He Hpre Hp Hok), Ht.
  split; [apply outcome_finish_success|].
  apply requests_of_finish. reflexivity.
Qed.

(** What the failure message is made of once every proxy has failed: the
    status of the last response received, if there was one with a
    non-zero status, and the words "Network error" otherwise.  The error
    kept in [lastError] is not part of it. *)
Lemma exhausted_reason (w : World) (proxies : list JsString) (encoded : JsString) :
  passes_validation (url (react w)) ->
  encodeURIComponent (url (react w)) = Some encoded ->
  all_failed encoded (fetchCount w) proxies ->
  outcome (react (snd (fetchPageContentVia proxies w)))
  = Failure (failurePrefix ++ js "Failed to fetch: "
               ++ statusOrNetworkError
                    (fst (loopEnd (url (react w)) (fetchCount w) proxies))).
Proof.
  intros Hv He Hall.
  rewrite (run_all_failed w proxies encoded Hv He Hall).
  apply outcome_finish_failure.
Qed.

(** C5. When every proxy of a non-empty list answers with status 503,
    the handler returns normally, every proxy has been asked, and the page
    shows Failure with a reason that ends in "Failed to fetch: 503". *)
Theorem all_503_reports_503 (w : World) (proxies : list JsString)
  (encoded : JsString) :
  passes_validation (url (react w)) ->
  encodeURIComponent (url (react w)) = Some encoded ->
  proxies <> [] ->
  (forall i q, nth_error proxies i = Some q ->
     exists r, net (fetchCount w + i)%nat (proxyRequest encoded q) = Normal r
               /\ status r = 503) ->
  fst (fetchPageContentVia proxies w) = Normal tt
  /\ outcome (react (snd (fetchPageContentVia proxies w)))
     = Failure (failurePrefix ++ js "Failed to fetch: 503")
  /\ includes (failurePrefix ++ js "Failed to fetch: 503") (js "503") = true
  /\ requests_of (log (snd (fetchPageContentVia proxies w)))
     = requests_of (log w) ++ map (proxyRequest encoded) proxies.
Proof.
  intros Hv He Hne H503.
  assert (Hall : all_failed encoded (fetchCount w) proxies).
  { intros i q Hq. destruct (H503 i q Hq) as (r & -> & Hs).
    simpl. unfold ok. rewrite Hs. reflexivity. }
  split; [apply fetchPageContentVia_normal; exact Hv|].
  split; [|split; [vm_compute; reflexivity|]].
  - rewrite (exhausted_reason w proxies encoded Hv He Hall).
    unfold loopEnd. rewrite He. simpl fst.
    destruct (walk_keeps_status encoded 503 proxies eq_refl (fetchCount w)
                {| response := None; lastError := None |} H503)
      as (r & Hr & Hs); [intros E; contradiction|].
    rewrite Hr. unfold statusOrNetworkError. rewrite Hs. reflexivity.
  - rewrite (run_all_failed w proxies encoded Hv He Hall).
    apply requests_of_finish. reflexivity.
Qed.

Lemma settle_cases (w : World) (kept : option Response) (sent : list Request) :
  (exists html, settle w kept sent = finish_success w sent html)
  \/ (exists e, settle w kept sent = finish_failure w sent e).
Proof.
  unfold settle. destruct kept as [r|]; [|right; eauto].
  destruct (ok r); [|right; eauto].
  destruct (text r) as [html|e]; [left|right]; eauto.
Qed.

(** Guarded out: the only effect is one [setError]. *)
Lemma fetchPageContentVia_blank (proxies : list JsString) (w : World) :
  truthy (trim (url (react w))) = false ->
  fetchPageContentVia proxies w = setError (js "Please enter a valid URL") w.
Proof.
  intros H. unfold fetchPageContentVia, bind, readState. rewrite H. reflexivity.
Qed.

Lemma fetchPageContentVia_invalid (proxies : list JsString) (w : World) :
  truthy (trim (url (react w))) = true ->
  isValidUrl (url (react w)) = false ->
  fetchPageContentVia proxies w
  = setError (js "Please enter a valid HTTP/HTTPS URL") w.
Proof.
  intros H1 H2. unfold fetchPageContentVia, bind, readState.
  rewrite H1, H2. reflexivity.
Qed.

Lemma requests_of_setError (m : JsString) (w : World) :
  requests_of (log (snd (setError m w))) = requests_of (log w).
Proof.
  unfold setError, emit, emit_all, with_react; simpl.
  rewrite requests_of_app. simpl. apply app_nil_r.
Qed.

(** The handler returns normally on every input. *)
Lemma fetchPageContentVia_never_throws (proxies : list JsString) (w : World) :
  fst (fetchPageContentVia proxies w) = Normal tt.
Proof.
  destruct (truthy (trim (url (react w)))) eqn:Ht.
  - destruct (isValidUrl (url (react w))) eqn:Hv.
    + apply fetchPageContentVia_normal. split; assumption.
    + rewrite (fetchPageContentVia_invalid _ _ Ht Hv). reflexivity.
  - rewrite (fetchPageContentVia_blank _ _ Ht). reflexivity.
Qed.

(** C4, as the code has it.  The handler never throws.  With a valid,
    encodable target, a rejected fetch or a response that is not ok only
    moves the loop to the next proxy, so that either some proxy is the
    first to answer ok - then only the proxies up to it are asked, and the
    page shows Success with the body, or Failure with the error of the
    body read when that read fails - or every proxy is asked and has
    failed, and the page shows Failure.  In particular a rejected first
    fetch followed by a 200 response with body "<html>B</html>" gives
    Success with that body and the target as source. *)
Theorem proxy_failures_stay_inside (proxies : list JsString) (w : World) :
  fst (fetchPageContentVia proxies w) = Normal tt
  /\ (forall encoded,
        passes_validation (url (react w)) ->
        encodeURIComponent (url (react w)) = Some encoded ->
        (exists pre p post r,
            proxies = pre ++ p :: post
            /\ all_failed encoded (fetchCount w) pre
            /\ net (fetchCount w + length pre)%nat (proxyRequest encoded p)
               = Normal r
            /\ ok r = true
            /\ requests_of (log (snd (fetchPageContentVia proxies w)))
               = requests_of (log w) ++ map (proxyRequest encoded) (pre ++ [p])
            /\ outcome (react (snd (fetchPageContentVia proxies w)))
               = match text r with
                 | Normal html => Success html (url (react w))
                 | Throw e => Failure (failurePrefix ++ errorMessage e)
                 end)
        \/ (all_failed encoded (fetchCount w) proxies
            /\ requests_of (log (snd (fetchPageContentVia proxies w)))
               = requests_of (log w) ++ map (proxyRequest encoded) proxies
            /\ exists detail,
                 outcome (react (snd (fetchPageContentVia proxies w)))
                 = Failure (failurePrefix ++ js "Failed to fetch: " ++ detail)))
  /\ (forall encoded p1 p2 rest e r,
        passes_validation (url (react w)) ->
        encodeURIComponent (url (react w)) = Some encoded ->
        proxies = p1 :: p2 :: rest ->
        net (fetchCount w) (proxyRequest encoded p1) = Throw e ->
        net (S (fetchCount w)) (proxyRequest encoded p2) = Normal r ->
        status r = 200 ->
        text r = Normal (js "<html>B</html>") ->
        outcome (react (snd (fetchPageContentVia proxies w)))
        = Success (js "<html>B</html>") (url (react w))).
Proof.
  split; [apply fetchPageContentVia_never_throws|]. split.
  - intros encoded Hv He.
    destruct (first_ok_or_all_failed encoded proxies (fetchCount w))
      as [(pre & p & post & r & -> & Hpre & Hp & Hok)|Hall].
    + left. exists pre, p, post, r.
      split; [reflexivity|]. do 3 (split; [assumption|]).
      rewrite (run_first_ok w pre post p encoded r Hv He Hpre Hp Hok).
      destruct (text r) as [html|e].
      * split; [apply requests_of_finish; reflexivity|].
        apply outcome_finish_success.
      * split; [apply requests_of_finish; reflexivity|].
        apply outcome_finish_failure.
    + right. split; [assumption|]. split.
      * rewrite (run_all_failed w proxies encoded Hv He Hall).
        apply requests_of_finish. reflexivity.
      * eexists. apply (exhausted_reason w proxies encoded Hv He Hall).
  - intros encoded p1 p2 rest e r Hv He -> H1 H2 Hs Ht.
    assert (Hpre : all_failed encoded (fetchCount w) [p1]).
    { apply all_failed_cons. rewrite H1. split; [exact I|apply all_failed_nil]. }
    assert (Hok : ok r = true) by (unfold ok; rewrite Hs; reflexivity).
    assert (Hp : net (fetchCount w + length [p1])%nat (proxyRequest encoded p2)
                 = Normal r).
    { simpl. rewrite Nat.add_1_r. exact H2. }
    change (p1 :: p2 :: rest) with ([p1] ++ p2 :: rest).
    rewrite (run_first_ok w [p1] rest p2 encoded r Hv He Hpre Hp Hok), Ht.
    apply outcome_finish_success.
Qed.

(** C6. A URL that is blank (empty or white space only) or that
    [isValidUrl] rejects gets an error message at once: the handler
    returns normally, its only effect is one [setError] with a non-empty
    message, and no request is sent. *)
Theorem invalid_input_no_request (proxies : list JsString) (w : World) :
  forallb isWhiteSpace (url (react w)) = true
  \/ isValidUrl (url (react w)) = false ->
  exists msg,
    (msg = js "Please enter a valid URL"
     \/ msg = js "Please enter a valid HTTP/HTTPS URL")
    /\ truthy msg = true
    /\ fetchPageContentVia proxies w = setError msg w
    /\ log (snd (fetchPageContentVia proxies w)) = log w ++ [EvSetError msg]
    /\ outcome (react (snd (fetchPageContentVia proxies w))) = Failure msg
    /\ requests_of (log (snd (fetchPageContentVia proxies w)))
       = requests_of (log w).
Proof.
  intros H.
  assert (Hcase : truthy (trim (url (react w))) = false
                  \/ (truthy (trim (url (react w))) = true
                      /\ isValidUrl (url (react w)) = false)).
  { destruct H as [Hb|Hi].
    - left. rewrite (trim_blank _ Hb). reflexivity.
    - destruct (truthy (trim (url (react w)))); auto. }
  destruct Hcase as [Ht|[Ht Hi]].
  - exists (js "Please enter a valid URL").
    rewrite (fetchPageContentVia_blank _ _ Ht).
    repeat split; auto using requests_of_setError.
  - exists (js "Please enter a valid HTTP/HTTPS URL").
    rewrite (fetchPageContentVia_invalid _ _ Ht Hi).
    repeat split; auto using requests_of_setError.
Qed.

Lemma In_firstn {A : Type} (x : A) (k : nat) (l : list A) :
  In x (firstn k l) -> In x l.
Proof.
  revert l; induction k as [|k IH]; intros [|y l]; simpl; try tauto.
  intros [H|H]; [left; exact H | right; apply IH; exact H].
Qed.

Lemma requests_of_settle (w : World) (kept : option Response)
  (sent : list Request) :
  requests_of (log (settle w kept sent)) = requests_of (log w) ++ sent.
Proof.
  destruct (settle_cases w kept sent) as [(html & ->)|(e & ->)];
    apply requests_of_finish; reflexivity.
Qed.

Lemma loopEnd_sent (target : JsString) (n : nat) (proxies : list JsString) :
  exists k,
    snd (loopEnd target n proxies)
    = match encodeURIComponent target with
      | Some encoded => map (proxyRequest encoded) (firstn k proxies)
      | None => []
      end.
Proof.
  unfold loopEnd. destruct (encodeURIComponent target) as [encoded|].
  - destruct (walk_requests_prefix encoded proxies n
                {| response := None; lastError := None |}) as [k Hk].
    exists k. exact Hk.
  - exists 0%nat. reflexivity.
Qed.

(** C7. The requests one invocation sends are, in order, those for an
    initial segment of the proxy list, and each of them has as URL the
    proxy prefix followed by [encodeURIComponent] of the target, the
    method GET, and the fixed User-Agent header as its only header: no
    credentials are attached.  For a target that passes validation and
    can be encoded, such a request does go out to every proxy attempted:
    to each proxy up to and including the first that answers ok, and to
    all of them when none does; a non-empty list gets at least one. *)
Theorem requests_are_proxy_plus_encoded_target (proxies : list JsString)
  (w : World) :
  (exists k sent,
    requests_of (log (snd (fetchPageContentVia proxies w)))
    = requests_of (log w) ++ sent
    /\ sent = match encodeURIComponent (url (react w)) with
              | Some encoded => map (proxyRequest encoded) (firstn k proxies)
              | None => []
              end
    /\ forall rq, In rq sent ->
         exists proxy encoded,
           In proxy proxies
           /\ encodeURIComponent (url (react w)) = Some encoded
           /\ input rq = proxy ++ encoded
           /\ method rq = js "GET"
           /\ headers rq
              = [(js "User-Agent",
                  js "Mozilla/5.0 (Windows NT 10.0; Win64; x64) AppleWebKit/537.36")])
  /\ (forall encoded,
        passes_validation (url (react w)) ->
        encodeURIComponent (url (react w)) = Some encoded ->
        exists attempted,
          requests_of (log (snd (fetchPageContentVia proxies w)))
          = requests_of (log w)
            ++ map (fun proxy =>
                      {| input := proxy ++ encoded;
                         method := js "GET";
                         headers :=
                           [(js "User-Agent",
                             js "Mozilla/5.0 (Windows NT 10.0; Win64; x64) AppleWebKit/537.36")] |})
                   attempted
          /\ (proxies <> [] -> attempted <> [])
          /\ ((attempted = proxies
               /\ all_failed encoded (fetchCount w) proxies)
              \/ exists pre p post r,
                   proxies = pre ++ p :: post
                   /\ attempted = pre ++ [p]
                   /\ all_failed encoded (fetchCount w) pre
                   /\ net (fetchCount w + length pre)%nat
                          (proxyRequest encoded p) = Normal r
                   /\ ok r = true)).
Proof.
  split.
  - assert (Hshape : forall k sent,
      sent = match encodeURIComponent (url (react w)) with
             | Some encoded => map (proxyRequest encoded) (firstn k proxies)
             | None => []
             end ->
      forall rq, In rq sent ->
        exists proxy encoded,
          In proxy proxies
          /\ encodeURIComponent (url (react w)) = Some encoded
          /\ input rq = proxy ++ encoded
          /\ method rq = js "GET"
          /\ headers rq = [(js "User-Agent", userAgent)]).
    { intros k sent -> rq Hin.
      destruct (encodeURIComponent (url (react w))) as [encoded|];
        [|contradiction].
      apply in_map_iff in Hin as (proxy & <- & Hp).
      exists proxy, encoded. repeat split.
      revert Hp. apply In_firstn. }
    destruct (truthy (trim (url (react w)))) eqn:Ht;
      [destruct (isValidUrl (url (react w))) eqn:Hv|].
    + destruct (loopEnd_sent (url (react w)) (fetchCount w) proxies) as [k Hk].
      exists k, (snd (loopEnd (url (react w)) (fetchCount w) proxies)).
      split; [|split; [exact Hk | exact (Hshape k _ Hk)]].
      rewrite (fetchPageContentVia_run proxies w (conj Ht Hv)).
      apply requests_of_settle.
    + exists 0%nat, []. rewrite (fetchPageContentVia_invalid _ _ Ht Hv).
      rewrite requests_of_setError, app_nil_r.
      split; [reflexivity|]. split; [|intros rq []].
      destruct (encodeURIComponent (url (react w))); reflexivity.
    + exists 0%nat, []. rewrite (fetchPageContentVia_blank _ _ Ht).
      rewrite requests_of_setError, app_nil_r.
      split; [reflexivity|]. split; [|intros rq []].
      destruct (encodeURIComponent (url (react w))); reflexivity.
  - intros encoded Hv He.
    change (fun proxy : JsString =>
              {| input := proxy ++ encoded;
                 method := js "GET";
                 headers :=
                   [(js "User-Agent",
                     js "Mozilla/5.0 (Windows NT 10.0; Win64; x64) AppleWebKit/537.36")] |})
      with (proxyRequest encoded).
    destruct (first_ok_or_all_failed encoded proxies (fetchCount w))
      as [(pre & p & post & r & Hsplit & Hpre & Hp & Hok)|Hall].
    + exists (pre ++ [p]). subst proxies. split; [|split].
      * rewrite (run_first_ok w pre post p encoded r Hv He Hpre Hp Hok).
        destruct (text r); apply requests_of_finish; reflexivity.
      * intros _ E. apply app_eq_nil in E as [_ E]. discriminate E.
      * right. exists pre, p, post, r. repeat split; assumption.
    + exists proxies. split; [|split].
      * rewrite (run_all_failed w proxies encoded Hv He Hall).
        apply requests_of_finish. reflexivity.
      * intros H. exact H.
      * left. split; [reflexivity | exact Hall].
Qed.

(** C10. An invocation that passes validation first sets the loading
    flag and clears the error and the held HTML, and only then sends its
    requests.  When it ends in Failure, the held HTML is left empty while
    [lastFetchedUrl] keeps the value it had before the invocation. *)
Theorem fetch_clears_before_proxies (proxies : list JsString) (w : World) :
  passes_validation (url (react w)) ->
  (exists sent tail,
      log (snd (fetchPageContentVia proxies w))
      = log w
        ++ [EvSetLoading true; EvSetError (js ""); EvSetHtmlContent (js "")]
        ++ map EvFetch sent ++ tail
      /\ requests_of tail = [])
  /\ (forall reason,
        outcome (react (snd (fetchPageContentVia proxies w))) = Failure reason ->
        htmlContent (react (snd (fetchPageContentVia proxies w))) = js ""
        /\ lastFetchedUrl (react (snd (fetchPageContentVia proxies w)))
           = lastFetchedUrl (react w)).
Proof.
  intros Hv. rewrite (fetchPageContentVia_run proxies w Hv). simpl snd.
  destruct (settle_cases w (fst (loopEnd (url (react w)) (fetchCount w) proxies))
              (snd (loopEnd (url (react w)) (fetchCount w) proxies)))
    as [(html & ->)|(e & ->)].
  - split.
    + eexists _, _. split; [reflexivity|reflexivity].
    + intros reason H. rewrite outcome_finish_success in H. discriminate H.
  - split.
    + eexists _, _. split; [reflexivity|reflexivity].
    + intros reason _. split; reflexivity.
Qed.

(** ** Download *)

(** C9. With no HTML held, [downloadHtml] returns at once and leaves the
    world as it was: no blob, no object URL, no download. *)
Theorem download_without_content_is_noop (w : World) :
  htmlContent (react w) = js "" ->
  downloadHtml w = (Normal tt, w).
Proof.
  intros H. unfold downloadHtml, bind, readState. rewrite H. reflexivity.
Qed.

(** C8, as the code has it.  With non-empty HTML held, [downloadHtml]
    returns normally and hands over exactly one file: its name is "page-",
    the clock reading in decimal, ".html"; its type is text/html; its bytes
    are the UTF-8 encoding of the held HTML.  No request is sent and the
    React state is untouched. *)
Theorem download_exports_utf8_html (w : World) :
  htmlContent (react w) <> js "" ->
  fst (downloadHtml w) = Normal tt
  /\ downloads_of (log (snd (downloadHtml w)))
     = downloads_of (log w)
       ++ [{| filename := js "page-" ++ number_to_string (clock w) ++ js ".html";
              mimeType := js "text/html";
              bytes := utf8_encode (htmlContent (react w)) |}]
  /\ requests_of (log (snd (downloadHtml w))) = requests_of (log w)
  /\ react (snd (downloadHtml w)) = react w.
Proof.
  intros H.
  unfold downloadHtml, bind, readState, createObjectURL, DateNow,
    appendChild, click, removeChild, revokeObjectURL.
  destruct (htmlContent (react w)) as [|c h] eqn:Hh; [contradiction H; reflexivity|].
  cbv beta iota delta [truthy negb].
  cbn [emit emit_all with_objectURLs objectURLs log react clock href download
       lookupURL].
  rewrite str_eqb_refl.
  cbn [emit emit_all with_objectURLs objectURLs log react clock href download
       fst snd newBlob blob_bytes blob_type flat_map].
  rewrite app_nil_r.
  repeat rewrite downloads_of_app. repeat rewrite requests_of_app.
  cbn [downloads_of requests_of app].
  repeat rewrite app_nil_r.
  repeat split.
Qed.

(** ** Further properties of the handlers *)

Lemma settle_frame (w : World) (kept : option Response) (sent : list Request) :
  url (react (settle w kept sent)) = url (react w)
  /\ loading (react (settle w kept sent)) = false
  /\ objectURLs (settle w kept sent) = objectURLs w
  /\ clock (settle w kept sent) = clock w
  /\ downloads_of (log (settle w kept sent)) = downloads_of (log w).
Proof.
  assert (Hd : forall rs, downloads_of (map EvFetch rs) = []).
  { induction rs; simpl; auto. }
  destruct (settle_cases w kept sent) as [(html & ->)|(e & ->)];
    unfold finish_success, finish_failure, finish;
    cbn [react log objectURLs clock url loading];
    rewrite !downloads_of_app, Hd; cbn [downloads_of app];
    rewrite app_nil_r; repeat split.
Qed.

(** The three ways an invocation can go. *)
Lemma fetchPageContentVia_cases (proxies : list JsString) (w : World) :
  (passes_validation (url (react w))
   /\ snd (fetchPageContentVia proxies w)
      = settle w (fst (loopEnd (url (react w)) (fetchCount w) proxies))
                 (snd (loopEnd (url (react w)) (fetchCount w) proxies)))
  \/ (exists msg, snd (fetchPageContentVia proxies w) = snd (setError msg w)).
Proof.
  destruct (truthy (trim (url (react w)))) eqn:Ht;
    [destruct (isValidUrl (url (react w))) eqn:Hv|].
  - left. split; [split; assumption|].
    rewrite (fetchPageContentVia_run proxies w (conj Ht Hv)). reflexivity.
  - right. eexists. rewrite (fetchPageContentVia_invalid _ _ Ht Hv). reflexivity.
  - right. eexists. rewrite (fetchPageContentVia_blank _ _ Ht). reflexivity.
Qed.

(** X1.  The loading flag of an invocation that passed validation: raised as
    its first effect, lowered as its last, on every path through the
    [try] block. *)
Theorem loading_flag_always_reset (proxies : list JsString) (w : World) :
  passes_validation (url (react w)) ->
  loading (react (snd (fetchPageContentVia proxies w))) = false
  /\ exists between,
       log (snd (fetchPageContentVia proxies w))
       = log w ++ EvSetLoading true :: between ++ [EvSetLoading false].
Proof.
  intros Hv. rewrite (fetchPageContentVia_run proxies w Hv). simpl snd.
  split; [apply settle_frame|].
  assert (Hlog : forall sent html err last tail,
    log (finish w sent html err last tail)
    = log w ++ EvSetLoading true
        :: ([EvSetError (js ""); EvSetHtmlContent (js "")]
            ++ map EvFetch sent ++ tail) ++ [EvSetLoading false]).
  { intros. unfold finish; cbn [log app]. rewrite <- !app_assoc.
    reflexivity. }
  destruct (settle_cases w (fst (loopEnd (url (react w)) (fetchCount w) proxies))
              (snd (loopEnd (url (react w)) (fetchCount w) proxies)))
    as [(html & ->)|(e & ->)];
    unfold finish_success, finish_failure; rewrite Hlog; eexists; reflexivity.
Qed.

(** X2.  A target that holds an unpaired surrogate can pass validation, but
    [encodeURIComponent] throws on it in every turn of the loop: no request
    is sent and the page shows the "Network error" failure. *)
Theorem unencodable_target_never_sent (proxies : list JsString) (w : World) :
  passes_validation (url (react w)) ->
  encodeURIComponent (url (react w)) = None ->
  outcome (react (snd (fetchPageContentVia proxies w)))
  = Failure (failurePrefix ++ js "Failed to fetch: Network error")
  /\ requests_of (log (snd (fetchPageContentVia proxies w)))
     = requests_of (log w).
Proof.
  intros Hv He. rewrite (run_unencodable w proxies Hv He). split.
  - apply outcome_finish_failure.
  - unfold finish_failure. rewrite requests_of_finish by reflexivity.
    apply app_nil_r.
Qed.

(** What an invocation sends, whatever the input. *)
Lemma sent_requests (proxies : list JsString) (w : World) :
  exists k,
    requests_of (log (snd (fetchPageContentVia proxies w)))
    = requests_of (log w)
      ++ match encodeURIComponent (url (react w)) with
         | Some encoded => map (proxyRequest encoded) (firstn k proxies)
         | None => []
         end.
Proof.
  destruct (fetchPageContentVia_cases proxies w) as [[_ ->]|[msg ->]].
  - destruct (loopEnd_sent (url (react w)) (fetchCount w) proxies) as [k Hk].
    exists k. rewrite requests_of_settle, Hk. reflexivity.
  - exists 0%nat. rewrite requests_of_setError.
    destruct (encodeURIComponent (url (react w))); simpl;
      rewrite app_nil_r; reflexivity.
Qed.

Lemma fetchEffect_fetches (rs : list Request) :
  forallb fetchEffect (map EvFetch rs) = true.
Proof. induction rs; simpl; auto. Qed.

(** X3.  Everything an invocation does is a state setter, a fetch or a
    [console.error]: its log holds no object URL being created or revoked,
    no anchor appended, clicked or removed, and no file handed over.  The
    typed URL and the object URL store are as before. *)
Theorem fetch_leaves_rest_of_world (proxies : list JsString) (w : World) :
  exists effects,
    log (snd (fetchPageContentVia proxies w)) = log w ++ effects
    /\ forallb fetchEffect effects = true
    /\ url (react (snd (fetchPageContentVia proxies w))) = url (react w)
    /\ objectURLs (snd (fetchPageContentVia proxies w)) = objectURLs w.
Proof.
  destruct (fetchPageContentVia_cases proxies w) as [[_ ->]|[msg ->]].
  - destruct (settle_cases w
                (fst (loopEnd (url (react w)) (fetchCount w) proxies))
                (snd (loopEnd (url (react w)) (fetchCount w) proxies)))
      as [(html & ->)|(e & ->)];
      unfold finish_success, finish_failure, finish;
      cbn [log react url objectURLs];
      (eexists; split; [reflexivity|]; split; [|split; reflexivity]);
      rewrite !forallb_app, fetchEffect_fetches; reflexivity.
  - exists [EvSetError msg]. repeat split.
Qed.

(** *** Blank input *)

Lemma trimStart_nil_iff (s : JsString) :
  trimStart s = [] <-> forallb isWhiteSpace s = true.
Proof.
  induction s as [|c s IH]; simpl; [tauto|].
  destruct (isWhiteSpace c); simpl; [exact IH|].
  split; discriminate.
Qed.

Lemma trimStart_head (s : JsString) (c : CodeUnit) (t : JsString) :
  trimStart s = c :: t -> isWhiteSpace c = false.
Proof.
  induction s as [|d s IH]; simpl; [discriminate|].
  destruct (isWhiteSpace d) eqn:Hd; [exact IH|].
  intros H. injection H as <- _. exact Hd.
Qed.

Lemma forallb_rev {A : Type} (f : A -> bool) (l : list A) :
  forallb f (rev l) = forallb f l.
Proof.
  induction l as [|x l IH]; simpl; [reflexivity|].
  rewrite forallb_app, IH. simpl. rewrite andb_true_r. apply andb_comm.
Qed.

(** [trim] leaves nothing exactly when the string is white space only. *)
Lemma trim_nil_iff (s : JsString) :
  trim s = [] <-> forallb isWhiteSpace s = true.
Proof.
  split; [|apply trim_blank].
  unfold trim, trimEnd. intros H.
  assert (H' : trimStart (rev (trimStart s)) = []).
  { destruct (trimStart (rev (trimStart s))) as [|c t]; [reflexivity|].
    simpl in H. apply app_eq_nil in H as [_ H]. discriminate H. }
  apply trimStart_nil_iff in H'. rewrite forallb_rev in H'.
  apply trimStart_nil_iff.
  destruct (trimStart s) as [|c t] eqn:Hs; [reflexivity|].
  apply trimStart_head in Hs. simpl in H'. rewrite Hs in H'. discriminate H'.
Qed.

Lemma truthy_trim_false (s : JsString) :
  truthy (trim s) = false <-> forallb isWhiteSpace s = true.
Proof.
  rewrite <- trim_nil_iff. destruct (trim s); simpl; split; congruence.
Qed.

(** X4.  The message "Please enter a valid URL" is what the page shows exactly
    when the typed URL is empty or white space only; every other path
    through the handler leaves a different [error]. *)
Theorem blank_message_iff_blank_url (proxies : list JsString) (w : World) :
  error (react (snd (fetchPageContentVia proxies w)))
  = js "Please enter a valid URL"
  <-> forallb isWhiteSpace (url (react w)) = true.
Proof.
  rewrite <- truthy_trim_false.
  destruct (truthy (trim (url (react w)))) eqn:Ht.
  - split; [|discriminate]. intros H. exfalso.
    destruct (isValidUrl (url (react w))) eqn:Hv.
    + rewrite (fetchPageContentVia_run proxies w (conj Ht Hv)) in H.
      simpl snd in H.
      destruct (settle_cases w
                  (fst (loopEnd (url (react w)) (fetchCount w) proxies))
                  (snd (loopEnd (url (react w)) (fetchCount w) proxies)))
        as [(html & Hs)|(e & Hs)]; rewrite Hs in H;
        unfold finish_success, finish_failure, finish in H;
        cbn [react error] in H; vm_compute in H; discriminate H.
    + rewrite (fetchPageContentVia_invalid _ _ Ht Hv) in H.
      vm_compute in H. discriminate H.
  - split; [reflexivity|]. intros _.
    rewrite (fetchPageContentVia_blank _ _ Ht). reflexivity.
Qed.

Lemma whitespace_not_alpha (c : CodeUnit) :
  isWhiteSpace c = true -> isAsciiAlpha c = false.
Proof.
  unfold isWhiteSpace, isAsciiAlpha. intros H.
  repeat (apply orb_true_iff in H as [H|H]);
    try (apply N.eqb_eq in H; subst c; reflexivity).
  apply andb_true_iff in H as [H1 H2].
  apply N.leb_le in H1.
  apply orb_false_iff. split; apply andb_false_iff; right;
    apply N.leb_gt; lia.
Qed.

Lemma In_stripStart (x : CodeUnit) (s : JsString) :
  In x (UrlStd.stripStart s) -> In x s.
Proof.
  induction s as [|c s IH]; simpl; [tauto|].
  destruct (UrlStd.isC0ControlOrSpace c); [auto | simpl; tauto].
Qed.

Lemma In_preprocess (x : CodeUnit) (s : JsString) :
  In x (UrlStd.preprocess s) -> In x s.
Proof.
  unfold UrlStd.preprocess. intros H.
  apply filter_In in H as [H _]. apply In_rev in H.
  apply In_stripStart in H. apply In_rev in H.
  apply In_stripStart in H. exact H.
Qed.

Lemma blank_has_no_scheme (s : JsString) :
  forallb isWhiteSpace s = true -> UrlStd.scan_scheme s = None.
Proof.
  intros H. unfold UrlStd.scan_scheme.
  destruct (UrlStd.preprocess s) as [|c t] eqn:Hp; [reflexivity|].
  assert (Hc : In c s) by (apply In_preprocess; rewrite Hp; left; reflexivity).
  rewrite forallb_forall in H.
  rewrite (whitespace_not_alpha c (H c Hc)). reflexivity.
Qed.

(** X5.  A URL that is empty or white space only is rejected by [isValidUrl]
    as well: the first guard of [fetchPageContent] only selects the
    message, it never stops a URL the validator would accept. *)
Theorem blank_url_is_invalid (s : JsString) :
  forallb isWhiteSpace s = true -> isValidUrl s = false.
Proof.
  intros H. apply isValidUrl_no_scheme. apply blank_has_no_scheme. exact H.
Qed.

(** *** The encoded target *)

Lemma hexDigit_unreserved (n : N) : uriUnreserved (hexDigit n) = true.
Proof.
  unfold hexDigit. generalize (N.to_nat n). intros k.
  do 16 (destruct k as [|k]; [reflexivity|]).
  destruct k; reflexivity.
Qed.

Lemma percent_utf8_chars (cp : N) :
  forallb isEncodedChar (percent_utf8 cp) = true.
Proof.
  unfold percent_utf8. induction (utf8_octets cp) as [|o os IH]; [reflexivity|].
  cbn [flat_map]. rewrite forallb_app, IH, andb_true_r.
  unfold percent. cbn [forallb]. unfold isEncodedChar at 2 3.
  rewrite !hexDigit_unreserved. reflexivity.
Qed.

Lemma encodeURIComponent_chars_bounded (n : nat) :
  forall s e, (length s <= n)%nat ->
    encodeURIComponent s = Some e -> forallb isEncodedChar e = true.
Proof.
  induction n as [|n IH]; intros s e Hlen He.
  - destruct s; [|simpl in Hlen; lia]. injection He as <-. reflexivity.
  - destruct s as [|c s]; [injection He as <-; reflexivity|].
    simpl in Hlen. simpl in He.
    destruct (uriUnreserved c) eqn:Hu.
    + destruct (encodeURIComponent s) as [e'|] eqn:Hs; [|discriminate He].
      injection He as <-. cbn [forallb]. unfold isEncodedChar at 1.
      rewrite Hu. simpl. apply (IH s e'); [lia | exact Hs].
    + destruct (isLeadSurrogate c).
      * destruct s as [|d s']; [discriminate He|].
        destruct (isTrailSurrogate d); [|discriminate He].
        destruct (encodeURIComponent s') as [e'|] eqn:Hs; [|discriminate He].
        injection He as <-. rewrite forallb_app, percent_utf8_chars.
        simpl in Hlen. apply (IH s' e'); [lia | exact Hs].
      * destruct (isTrailSurrogate c); [discriminate He|].
        destruct (encodeURIComponent s) as [e'|] eqn:Hs; [|discriminate He].
        injection He as <-. rewrite forallb_app, percent_utf8_chars.
        apply (IH s e'); [lia | exact Hs].
Qed.

Lemma encodeURIComponent_chars (s e : JsString) :
  encodeURIComponent s = Some e -> forallb isEncodedChar e = true.
Proof. apply (encodeURIComponent_chars_bounded (length s)). apply Nat.le_refl. Qed.

(** X6.  Whatever the typed URL holds, each request URL is a proxy prefix
    followed only by unreserved characters and percent signs: the target's
    own [:], [/], [?], [#], [&] and [=] never reach the proxy URL
    unescaped. *)
Theorem target_reaches_proxy_escaped (proxies : list JsString) (w : World) :
  exists sent,
    requests_of (log (snd (fetchPageContentVia proxies w)))
    = requests_of (log w) ++ sent
    /\ forall rq, In rq sent ->
         exists proxy encoded,
           In proxy proxies
           /\ input rq = proxy ++ encoded
           /\ forallb isEncodedChar encoded = true
           /\ forallb (fun c => negb (existsb (N.eqb c) (js ":/?#&=")))
                      encoded = true.
Proof.
  destruct (sent_requests proxies w) as [k Hk].
  eexists. split; [exact Hk|].
  intros rq Hin.
  destruct (encodeURIComponent (url (react w))) as [encoded|] eqn:He;
    [|contradiction].
  apply in_map_iff in Hin as (proxy & <- & Hp).
  exists proxy, encoded.
  pose proof (encodeURIComponent_chars _ _ He) as Hc.
  split; [revert Hp; apply In_firstn|]. split; [reflexivity|].
  split; [exact Hc|].
  rewrite forallb_forall in Hc |- *. intros c Hin. specialize (Hc c Hin).
  unfold isEncodedChar in Hc.
  destruct (existsb (N.eqb c) (js ":/?#&=")) eqn:Hx; [|reflexivity].
  exfalso. apply existsb_exists in Hx as (d & Hd & Hcd).
  apply N.eqb_eq in Hcd. subst d.
  cbv in Hd.
  repeat (destruct Hd as [Hd|Hd]; [subst c; discriminate Hc|]).
  exact Hd.
Qed.

(** *** The reason after exhaustion *)

Lemma all_failed_app (encoded : JsString) (n : nat) (a b : list JsString) :
  all_failed encoded n a ->
  all_failed encoded (n + length a)%nat b ->
  all_failed encoded n (a ++ b).
Proof.
  revert n. induction a as [|q a IH]; intros n Ha Hb; simpl.
  - simpl in Hb. rewrite Nat.add_0_r in Hb. exact Hb.
  - apply all_failed_cons in Ha as [Hq Ha].
    apply all_failed_cons. split; [exact Hq|].
    apply IH; [exact Ha|].
    simpl in Hb. rewrite Nat.add_succ_r in Hb. exact Hb.
Qed.

Lemma all_rejected_cons (encoded : JsString) (n : nat) (q : JsString)
  (ps : list JsString) :
  all_rejected encoded n (q :: ps) ->
  (exists e, net n (proxyRequest encoded q) = Throw e)
  /\ all_rejected encoded (S n) ps.
Proof.
  intros H. split.
  - specialize (H 0%nat q eq_refl). rewrite Nat.add_0_r in H. exact H.
  - intros i p Hp. specialize (H (S i) p Hp).
    rewrite Nat.add_succ_r in H. exact H.
Qed.

Lemma all_rejected_failed (encoded : JsString) (n : nat) (ps : list JsString) :
  all_rejected encoded n ps -> all_failed encoded n ps.
Proof.
  intros H i q Hq. destruct (H i q Hq) as [e ->]. exact I.
Qed.

(** Rejected fetches leave the kept response alone. *)
Lemma walk_rejected_keeps (encoded : JsString) (ps : list JsString) :
  forall n v,
    all_rejected encoded n ps ->
    response (fst (walk encoded n ps v)) = response v.
Proof.
  induction ps as [|q ps IH]; intros n v H; simpl; [reflexivity|].
  apply all_rejected_cons in H as [[e He] H]. rewrite He. simpl.
  rewrite IH by exact H. reflexivity.
Qed.

Lemma walk_failed_prefix (encoded : JsString) (pre rest : list JsString) :
  forall n v,
    all_failed encoded n pre ->
    exists v',
      fst (walk encoded n (pre ++ rest) v)
      = fst (walk encoded (n + length pre)%nat rest v').
Proof.
  induction pre as [|q pre IH]; intros n v H; simpl.
  - exists v. rewrite Nat.add_0_r. reflexivity.
  - apply all_failed_cons in H as [Hq H]. rewrite Nat.add_succ_r.
    destruct (net n (proxyRequest encoded q)) as [r|e]; simpl in Hq.
    + rewrite Hq. simpl. apply IH. exact H.
    + simpl. apply IH. exact H.
Qed.

(** X7.  When every fetch is rejected there is no response to name: the
    reason ends in the fixed words "Network error", whatever errors the
    fetches were rejected with. *)
Theorem all_rejected_reports_network_error (w : World) (proxies : list JsString)
  (encoded : JsString) :
  passes_validation (url (react w)) ->
  encodeURIComponent (url (react w)) = Some encoded ->
  all_rejected encoded (fetchCount w) proxies ->
  outcome (react (snd (fetchPageContentVia proxies w)))
  = Failure (failurePrefix ++ js "Failed to fetch: Network error")
  /\ requests_of (log (snd (fetchPageContentVia proxies w)))
     = requests_of (log w) ++ map (proxyRequest encoded) proxies.
Proof.
  intros Hv He Hrej.
  pose proof (all_rejected_failed encoded _ _ Hrej) as Hall. split.
  - rewrite (exhausted_reason w proxies encoded Hv He Hall).
    unfold loopEnd. rewrite He. cbn [fst].
    rewrite (walk_rejected_keeps encoded proxies _ _ Hrej). reflexivity.
  - rewrite (run_all_failed w proxies encoded Hv He Hall).
    apply requests_of_finish. reflexivity.
Qed.

(** X8.  After exhaustion the reason names the status of the last response
    that was received, also when the proxies asked after it were rejected:
    rejections leave no trace in the reason. *)
Theorem reason_names_last_response (w : World) (pre post : list JsString)
  (q encoded : JsString) (r : Response) :
  passes_validation (url (react w)) ->
  encodeURIComponent (url (react w)) = Some encoded ->
  all_failed encoded (fetchCount w) pre ->
  net (fetchCount w + length pre)%nat (proxyRequest encoded q) = Normal r ->
  ok r = false ->
  status r <> 0 ->
  all_rejected encoded (S (fetchCount w + length pre)) post ->
  outcome (react (snd (fetchPageContentVia (pre ++ q :: post) w)))
  = Failure (failurePrefix ++ js "Failed to fetch: "
               ++ number_to_string (status r)).
Proof.
  intros Hv He Hpre Hq Hok Hs Hpost.
  assert (Hall : all_failed encoded (fetchCount w) (pre ++ q :: post)).
  { apply all_failed_app; [exact Hpre|].
    apply all_failed_cons. rewrite Hq. split; [exact Hok|].
    apply all_rejected_failed. exact Hpost. }
  rewrite (exhausted_reason w _ encoded Hv He Hall).
  unfold loopEnd. rewrite He. cbn [fst].
  destruct (walk_failed_prefix encoded pre (q :: post) (fetchCount w)
              {| response := None; lastError := None |} Hpre) as [v' ->].
  cbn [walk]. rewrite Hq, Hok. cbn [fst].
  rewrite (walk_rejected_keeps encoded post _ _ Hpost). cbn [response].
  unfold statusOrNetworkError.
  destruct (N.eqb_spec (status r) 0) as [E|_]; [contradiction|reflexivity].
Qed.

(** *** Saving the HTML *)

Lemma downloadHtml_run (w : World) :
  truthy (htmlContent (react w)) = true ->
  downloadHtml w = (Normal tt, afterDownload w).
Proof.
  intros H.
  unfold downloadHtml, bind, readState, createObjectURL, DateNow,
    appendChild, click, removeChild, revokeObjectURL, afterDownload.
  rewrite H. cbv beta iota delta [negb].
  cbn [emit emit_all with_objectURLs objectURLs log react clock href download
       lookupURL].
  rewrite str_eqb_refl.
  cbv beta iota delta
    [emit emit_all with_objectURLs react log objectURLs clock].
  repeat rewrite <- app_assoc. reflexivity.
Qed.

Lemma newBlob_html (h : JsString) :
  newBlob [h] (js "text/html")
  = {| blob_bytes := utf8_encode h; blob_type := js "text/html" |}.
Proof.
  unfold newBlob. cbn [flat_map]. rewrite app_nil_r. reflexivity.
Qed.

Lemma downloads_of_afterDownload (w : World) :
  downloads_of (log (afterDownload w))
  = downloads_of (log w)
    ++ [{| filename := js "page-" ++ number_to_string (clock w) ++ js ".html";
           mimeType := js "text/html";
           bytes := utf8_encode (htmlContent (react w)) |}].
Proof.
  unfold afterDownload. rewrite newBlob_html. cbn [log].
  rewrite downloads_of_app. reflexivity.
Qed.

Lemma filter_fresh (u : JsString) (store : list (JsString * Blob)) :
  lookupURL u store = None ->
  filter (fun p => negb (str_eqb (fst p) u)) store = store.
Proof.
  induction store as [|[k b] store IH]; simpl; [reflexivity|].
  destruct (str_eqb k u); [discriminate|].
  intros H. simpl. rewrite (IH H). reflexivity.
Qed.

(** X9.  With HTML to save, [downloadHtml] performs six effects in this
    order: it creates the object URL, appends the anchor, clicks it (which
    hands over the file), removes the anchor and revokes the URL.  When the
    URL the browser mints is not already live, the object URL store ends as
    it started: nothing is left behind. *)
Theorem download_cleans_up_after_itself (w : World) :
  htmlContent (react w) <> js "" ->
  let blob := {| blob_bytes := utf8_encode (htmlContent (react w));
                 blob_type := js "text/html" |} in
  let u := mintObjectURL (objectURLs w) in
  let a := {| href := u;
              download := js "page-" ++ number_to_string (clock w)
                          ++ js ".html" |} in
  log (snd (downloadHtml w))
  = log w ++ [EvCreateObjectURL blob u; EvAppendChild a; EvClick a;
              EvDownload {| filename := download a;
                            mimeType := js "text/html";
                            bytes := utf8_encode (htmlContent (react w)) |};
              EvRemoveChild a; EvRevokeObjectURL u]
  /\ (lookupURL u (objectURLs w) = None ->
      objectURLs (snd (downloadHtml w)) = objectURLs w).
Proof.
  intros H blob u a.
  assert (Ht : truthy (htmlContent (react w)) = true).
  { destruct (htmlContent (react w)); [contradiction H; reflexivity|reflexivity]. }
  rewrite (downloadHtml_run w Ht). cbn [snd]. split.
  - unfold afterDownload. rewrite newBlob_html. reflexivity.
  - intros Hfresh. unfold afterDownload. cbn [objectURLs filter fst].
    fold u. rewrite str_eqb_refl. cbn [negb].
    apply filter_fresh. exact Hfresh.
Qed.

Lemma utf8_encode_ascii (s : JsString) :
  forallb (fun c => c <? 0x80) s = true -> utf8_encode s = s.
Proof.
  unfold utf8_encode.
  induction s as [|c s IH]; [reflexivity|].
  cbn [forallb]. intros H. apply andb_true_iff in H as [Hc Hs].
  assert (Hlt : c < 0x80) by (apply N.ltb_lt; exact Hc).
  cbn [scalar_values].
  assert (Hl : isLeadSurrogate c = false).
  { unfold isLeadSurrogate. apply andb_false_iff. left. apply N.leb_gt. lia. }
  assert (Ht : isTrailSurrogate c = false).
  { unfold isTrailSurrogate. apply andb_false_iff. left. apply N.leb_gt. lia. }
  rewrite Hl, Ht. cbn [flat_map]. unfold utf8_octets at 1. rewrite Hc.
  cbn [app]. rewrite (IH Hs). reflexivity.
Qed.

(** X10.  For HTML made of ASCII characters only, the bytes of the saved file
    are the characters themselves, one byte each. *)
Theorem ascii_html_saved_verbatim (w : World) :
  htmlContent (react w) <> js "" ->
  forallb (fun c => c <? 0x80) (htmlContent (react w)) = true ->
  downloads_of (log (snd (downloadHtml w)))
  = downloads_of (log w)
    ++ [{| filename := js "page-" ++ number_to_string (clock w) ++ js ".html";
           mimeType := js "text/html";
           bytes := htmlContent (react w) |}].
Proof.
  intros H Hascii.
  assert (Ht : truthy (htmlContent (react w)) = true).
  { destruct (htmlContent (react w)); [contradiction H; reflexivity|reflexivity]. }
  rewrite (downloadHtml_run w Ht). cbn [snd].
  rewrite downloads_of_afterDownload, (utf8_encode_ascii _ Hascii).
  reflexivity.
Qed.

(** *** Fetching, then saving *)

Lemma downloads_of_finish (w : World) (sent : list Request)
  (html err last : JsString) (tail : list Event) :
  downloads_of tail = [] ->
  downloads_of (log (finish w sent html err last tail)) = downloads_of (log w).
Proof.
  intros Ht.
  assert (Hd : forall rs, downloads_of (map EvFetch rs) = []).
  { induction rs; simpl; auto. }
  unfold finish; cbn [log]. rewrite !downloads_of_app, Hd, Ht.
  cbn [downloads_of app]. apply app_nil_r.
Qed.

(** X11.  The file saved after a successful fetch holds the body of the proxy
    that won: its bytes are the UTF-8 encoding of that body. *)
Theorem saved_file_is_fetched_body (w : World) (pre post : list JsString)
  (p encoded : JsString) (r : Response) (B : JsString) :
  passes_validation (url (react w)) ->
  encodeURIComponent (url (react w)) = Some encoded ->
  all_failed encoded (fetchCount w) pre ->
  net (fetchCount w + length pre)%nat (proxyRequest encoded p) = Normal r ->
  ok r = true ->
  text r = Normal B ->
  B <> js "" ->
  downloads_of
    (log (snd (downloadHtml (snd (fetchPageContentVia (pre ++ p :: post) w)))))
  = downloads_of (log w)
    ++ [{| filename := js "page-" ++ number_to_string (clock w) ++ js ".html";
           mimeType := js "text/html";
           bytes := utf8_encode B |}].
Proof.
  intros Hv He Hpre Hp Hok Ht HB.
  rewrite (run_first_ok w pre post p encoded r Hv He Hpre Hp Hok), Ht.
  assert (Hh : truthy (htmlContent
                         (react (finish_success w
                                   (map (proxyRequest encoded) (pre ++ [p])) B)))
               = true).
  { unfold finish_success, finish. cbn [react htmlContent].
    destruct B; [contradiction HB; reflexivity|reflexivity]. }
  rewrite (downloadHtml_run _ Hh). cbn [snd].
  rewrite downloads_of_afterDownload.
  unfold finish_success at 1. rewrite downloads_of_finish by reflexivity.
  reflexivity.
Qed.

(** X12.  After a fetch that passed validation and ended in Failure there is
    nothing to save: [downloadHtml] changes nothing. *)
Theorem nothing_to_save_after_failure (proxies : list JsString) (w : World)
  (reason : JsString) :
  passes_validation (url (react w)) ->
  outcome (react (snd (fetchPageContentVia proxies w))) = Failure reason ->
  downloadHtml (snd (fetchPageContentVia proxies w))
  = (Normal tt, snd (fetchPageContentVia proxies w)).
Proof.
  intros Hv. rewrite (fetchPageContentVia_run proxies w Hv). simpl snd.
  destruct (settle_cases w (fst (loopEnd (url (react w)) (fetchCount w) proxies))
              (snd (loopEnd (url (react w)) (fetchCount w) proxies)))
    as [(html & ->)|(e & ->)]; intros H.
  - rewrite outcome_finish_success in H. discriminate H.
  - unfold downloadHtml, bind, readState. reflexivity.
Qed.

(** *** What the page shows afterwards *)

(** X13.  After an invocation that passed validation the form is usable again
    (input enabled, button enabled and labelled "Fetch Page", URL as
    typed), and the page never shows the error banner together with a
    preview. *)
Theorem view_after_fetch (proxies : list JsString) (w : World) :
  passes_validation (url (react w)) ->
  inputValue (render (react (snd (fetchPageContentVia proxies w))))
  = url (react w)
  /\ inputDisabled (render (react (snd (fetchPageContentVia proxies w)))) = false
  /\ submitDisabled (render (react (snd (fetchPageContentVia proxies w)))) = false
  /\ submitLabel (render (react (snd (fetchPageContentVia proxies w))))
     = js "Fetch Page"
  /\ (errorBanner (render (react (snd (fetchPageContentVia proxies w)))) = None
      \/ (fetchedBlock (render (react (snd (fetchPageContentVia proxies w))))
          = None
          /\ previewFrame (render (react (snd (fetchPageContentVia proxies w))))
             = None)).
Proof.
  intros Hv. rewrite (fetchPageContentVia_run proxies w Hv). simpl snd.
  destruct Hv as [Htrim _].
  destruct (settle_cases w (fst (loopEnd (url (react w)) (fetchCount w) proxies))
              (snd (loopEnd (url (react w)) (fetchCount w) proxies)))
    as [(html & ->)|(e & ->)];
    unfold render, finish_success, finish_failure, finish;
    cbn [react url loading error htmlContent lastFetchedUrl
         inputValue inputDisabled submitDisabled submitLabel errorBanner
         fetchedBlock previewFrame];
    rewrite Htrim; repeat split; auto.
Qed.

(** X14.  A typed URL that is rejected (blank, or refused by [isValidUrl])
    puts up the error banner and leaves an earlier preview, with its
    source line, on screen as it was. *)
Theorem rejected_input_keeps_old_preview (proxies : list JsString) (w : World) :
  forallb isWhiteSpace (url (react w)) = true
  \/ isValidUrl (url (react w)) = false ->
  fetchedBlock (render (react (snd (fetchPageContentVia proxies w))))
  = fetchedBlock (render (react w))
  /\ previewFrame (render (react (snd (fetchPageContentVia proxies w))))
     = previewFrame (render (react w))
  /\ inputDisabled (render (react (snd (fetchPageContentVia proxies w))))
     = inputDisabled (render (react w))
  /\ exists msg,
       errorBanner (render (react (snd (fetchPageContentVia proxies w))))
       = Some msg.
Proof.
  intros H.
  assert (Hmsg : exists msg,
             truthy msg = true
             /\ fetchPageContentVia proxies w = setError msg w).
  { destruct (truthy (trim (url (react w)))) eqn:Ht.
    - destruct H as [Hb|Hi].
      + apply truthy_trim_false in Hb. congruence.
      + exists (js "Please enter a valid HTTP/HTTPS URL").
        split; [reflexivity | apply fetchPageContentVia_invalid; assumption].
    - exists (js "Please enter a valid URL").
      split; [reflexivity | apply fetchPageContentVia_blank; assumption]. }
  destruct Hmsg as (msg & Hm & ->).
  unfold render, setError, emit, emit_all, with_react.
  cbn [snd react url loading error htmlContent lastFetchedUrl
       inputDisabled errorBanner fetchedBlock previewFrame].
  rewrite Hm. repeat split. exists msg. reflexivity.
Qed.

(** X15.  An ok response with an empty body is a success the page cannot
    show: no error banner, no "Fetched Content" block and no preview. *)
Theorem empty_body_shows_nothing (w : World) (pre post : list JsString)
  (p encoded : JsString) (r : Response) :
  passes_validation (url (react w)) ->
  encodeURIComponent (url (react w)) = Some encoded ->
  all_failed encoded (fetchCount w) pre ->
  net (fetchCount w + length pre)%nat (proxyRequest encoded p) = Normal r ->
  ok r = true ->
  text r = Normal (js "") ->
  errorBanner (render (react (snd (fetchPageContentVia (pre ++ p :: post) w))))
  = None
  /\ fetchedBlock
       (render (react (snd (fetchPageContentVia (pre ++ p :: post) w)))) = None
  /\ previewFrame
       (render (react (snd (fetchPageContentVia (pre ++ p :: post) w)))) = None
  /\ lastFetchedUrl (react (snd (fetchPageContentVia (pre ++ p :: post) w)))
     = url (react w).
Proof.
  intros Hv He Hpre Hp Hok Ht.
  rewrite (run_first_ok w pre post p encoded r Hv He Hpre Hp Hok), Ht.
  repeat split.
Qed.

(** X16.  Whenever the Download button is on screen, a click on it hands over
    exactly one file, holding the HTML of the preview: the guard at the
    top of [downloadHtml] is never met from the page. *)
Theorem download_button_always_delivers (w : World) (f : Frame) :
  previewFrame (render (react w)) = Some f ->
  fetchedBlock (render (react w)) <> None
  /\ downloads_of (log (snd (downloadHtml w)))
     = downloads_of (log w)
       ++ [{| filename := js "page-" ++ number_to_string (clock w)
                          ++ js ".html";
              mimeType := js "text/html";
              bytes := utf8_encode (srcDoc f) |}].
Proof.
  unfold render. cbn [previewFrame fetchedBlock].
  destruct (truthy (htmlContent (react w))) eqn:Ht; [|discriminate].
  intros H. injection H as <-. split; [discriminate|].
  rewrite (downloadHtml_run w Ht). cbn [snd srcDoc].
  apply downloads_of_afterDownload.
Qed.

End PageReader.

(** ** Two networks *)

Lemma walk_same_responses (net net' : nat -> Request -> Completion Response)
  (encoded : JsString) (proxies : list JsString) :
  same_responses net net' ->
  forall n v v',
    response v = response v' ->
    response (fst (walk net encoded n proxies v))
    = response (fst (walk net' encoded n proxies v'))
    /\ snd (walk net encoded n proxies v) = snd (walk net' encoded n proxies v').
Proof.
  intros Hsame.
  induction proxies as [|p rest IH]; intros n v v' Hv; simpl.
  - auto.
  - specialize (Hsame n (proxyRequest encoded p)).
    destruct (net n (proxyRequest encoded p)) as [r|e];
      destruct (net' n (proxyRequest encoded p)) as [r'|e'];
      try contradiction.
    + subst r'. destruct (ok r); simpl; [auto|].
      destruct (IH (S n) {| response := Some r; lastError := lastError v |}
                   {| response := Some r; lastError := lastError v' |} eq_refl)
        as [H1 H2].
      rewrite H1, H2. auto.
    + simpl.
      destruct (IH (S n) {| response := response v; lastError := Some e |}
                   {| response := response v'; lastError := Some e' |} Hv)
        as [H1 H2].
      rewrite H1, H2. auto.
Qed.

(** X17.  The errors of rejected fetches leave no trace.  Two networks that
    give the same responses and reject the same fetches, whatever the
    errors they reject with, lead the handler through the same effects to
    the same world. *)
Theorem rejection_errors_leave_no_trace
  (URL_new : JsString -> Completion URL)
  (net net' : nat -> Request -> Completion Response)
  (proxies : list JsString) (w : World) :
  same_responses net net' ->
  fetchPageContentVia URL_new net proxies w
  = fetchPageContentVia URL_new net' proxies w.
Proof.
  intros Hsame.
  destruct (truthy (trim (url (react w)))) eqn:Ht;
    [destruct (isValidUrl URL_new (url (react w))) eqn:Hv|].
  - rewrite !(fetchPageContentVia_run _ _ _ _ (conj Ht Hv)).
    unfold loopEnd.
    destruct (encodeURIComponent (url (react w))) as [encoded|];
      [|reflexivity].
    destruct (walk_same_responses net net' encoded proxies Hsame (fetchCount w)
                {| response := None; lastError := None |}
                {| response := None; lastError := None |} eq_refl)
      as [H1 H2].
    cbn [fst snd]. rewrite H1, H2. reflexivity.
  - rewrite !(fetchPageContentVia_invalid _ _ _ _ Ht Hv). reflexivity.
  - rewrite !(fetchPageContentVia_blank _ _ _ _ Ht). reflexivity.
Qed.

(** ** The handlers on the sample platform *)

Lemma Sample_URL_new_scheme (s : JsString) (u : URL) :
  Sample.URL_new s = Normal u -> UrlStd.scan_scheme s = Some (scheme u).
Proof.
  unfold Sample.URL_new. destruct (UrlStd.scan_scheme s) as [sch|].
  - intros H. injection H as <-. reflexivity.
  - discriminate.
Qed.

Lemma Sample_target_passes : passes_validation Sample.URL_new Sample.target.
Proof. split; vm_compute; reflexivity. Qed.

Lemma Sample_target_encoded :
  encodeURIComponent Sample.target = Some Sample.encodedTarget.
Proof. vm_compute. reflexivity. Qed.

(** The first proxy answers 503, the second answers 200: the second
    body is shown and the third proxy is never asked. *)
Lemma first_ok_proxy_wins_witness :
  fst (fetchPageContent Sample.URL_new Sample.busyThenPage Sample.fresh)
  = Normal tt
  /\ outcome (react (snd (fetchPageContent Sample.URL_new Sample.busyThenPage
                            Sample.fresh)))
     = Success (js "<html>A</html>") Sample.target
  /\ requests_of (log (snd (fetchPageContent Sample.URL_new Sample.busyThenPage
                              Sample.fresh)))
     = [proxyRequest Sample.encodedTarget (js "https://api.allorigins.win/raw?url=");
        proxyRequest Sample.encodedTarget (js "https://cors-anywhere.herokuapp.com/")].
Proof.
  refine (first_ok_proxy_wins Sample.URL_new Sample.busyThenPage Sample.fresh
            [js "https://api.allorigins.win/raw?url="]
            [js "https://corsproxy.io/?"]
            (js "https://cors-anywhere.herokuapp.com/")
            Sample.encodedTarget
            {| status := 200; text := Normal (js "<html>A</html>") |}
            (js "<html>A</html>") _ _ _ _ _ _).
  - exact Sample_target_passes.
  - exact Sample_target_encoded.
  - apply all_failed_cons. split; [reflexivity | apply all_failed_nil].
  - reflexivity.
  - reflexivity.
  - reflexivity.
Defined.

(** C2.  On the code, the transport error never reaches the reason.
    With every proxy rejecting the fetch, the reason ends in the fixed
    words "Network error" and does not contain the error's message; with
    a 503 response followed by two rejected fetches, the reason names
    503, which is not what was observed last. *)
Theorem transport_error_dropped_from_reason :
  outcome (react (snd (fetchPageContent Sample.URL_new Sample.allFaults
                         Sample.fresh)))
  = Failure (failurePrefix ++ js "Failed to fetch: Network error")
  /\ includes (failurePrefix ++ js "Failed to fetch: Network error")
              (js "NetworkError when attempting to fetch resource.") = false
  /\ outcome (react (snd (fetchPageContent Sample.URL_new Sample.busyThenFaults
                            Sample.fresh)))
     = Failure (failurePrefix ++ js "Failed to fetch: 503").
Proof. vm_compute. repeat split. Qed.

Lemma isValidUrl_http_or_https_witness :
  isValidUrl Sample.URL_new (js "https://example.com") = true
  /\ isValidUrl Sample.URL_new (js "http://example.com/path?q=1") = true
  /\ isValidUrl Sample.URL_new (js "ftp://example.com/file.txt") = false
  /\ isValidUrl Sample.URL_new (js "not a url") = false.
Proof.
  destruct (isValidUrl_http_or_https Sample.URL_new Sample_URL_new_scheme
              Sample.target)
    as (_ & _ & _ & _ & Hnot & _ & Hftp & _ & Hhttps & Hhttp).
  split; [apply Hhttps; eexists; reflexivity|].
  split; [apply Hhttp; eexists; reflexivity|].
  split; [exact Hftp | exact Hnot].
Defined.

(** A rejected first fetch and a 200 answer from the second proxy. *)
Lemma proxy_failures_stay_inside_witness :
  fst (fetchPageContent Sample.URL_new Sample.faultThenPage Sample.fresh)
  = Normal tt
  /\ outcome (react (snd (fetchPageContent Sample.URL_new Sample.faultThenPage
                            Sample.fresh)))
     = Success (js "<html>B</html>") Sample.target.
Proof.
  destruct (proxy_failures_stay_inside Sample.URL_new Sample.faultThenPage
              corsProxies Sample.fresh) as (Hnormal & _ & Hexample).
  split; [exact Hnormal|].
  refine (Hexample Sample.encodedTarget _ _ _
            (ErrorObject (js "Failed to fetch"))
            {| status := 200; text := Normal (js "<html>B</html>") |}
            Sample_target_passes Sample_target_encoded eq_refl _ _ _ _);
    reflexivity.
Defined.

(** C4 as stated fails: the first proxy answers 200 but its body cannot
    be read.  The page shows Failure although one proxy out of three was
    asked and that one did not fail. *)
Lemma body_read_failure_counterexample :
  outcome (react (snd (fetchPageContent Sample.URL_new Sample.bodyLost
                         Sample.fresh)))
  = Failure (failurePrefix ++ js "network error")
  /\ length (requests_of (log (snd (fetchPageContent Sample.URL_new
                                      Sample.bodyLost Sample.fresh)))) = 1%nat
  /\ length corsProxies = 3%nat
  /\ ~ all_failed Sample.bodyLost Sample.encodedTarget 0 corsProxies.
Proof.
  split; [vm_compute; reflexivity|].
  split; [vm_compute; reflexivity|]. split; [reflexivity|].
  intros H. specialize (H 0%nat _ eq_refl). vm_compute in H. discriminate H.
Qed.

Lemma all_503_reports_503_witness :
  fst (fetchPageContent Sample.URL_new Sample.allBusy Sample.fresh) = Normal tt
  /\ outcome (react (snd (fetchPageContent Sample.URL_new Sample.allBusy
                            Sample.fresh)))
     = Failure (failurePrefix ++ js "Failed to fetch: 503")
  /\ includes (failurePrefix ++ js "Failed to fetch: 503") (js "503") = true
  /\ requests_of (log (snd (fetchPageContent Sample.URL_new Sample.allBusy
                              Sample.fresh)))
     = requests_of (log Sample.fresh)
       ++ map (proxyRequest Sample.encodedTarget) corsProxies.
Proof.
  apply (all_503_reports_503 Sample.URL_new Sample.allBusy Sample.fresh
           corsProxies Sample.encodedTarget).
  - exact Sample_target_passes.
  - exact Sample_target_encoded.
  - discriminate.
  - intros i q _. eexists. split; reflexivity.
Defined.

Lemma invalid_input_no_request_witness :
  exists msg,
    (msg = js "Please enter a valid URL"
     \/ msg = js "Please enter a valid HTTP/HTTPS URL")
    /\ truthy msg = true
    /\ fetchPageContent Sample.URL_new Sample.busyThenPage Sample.typedFtp
       = setError msg Sample.typedFtp
    /\ log (snd (fetchPageContent Sample.URL_new Sample.busyThenPage
                   Sample.typedFtp))
       = log Sample.typedFtp ++ [EvSetError msg]
    /\ outcome (react (snd (fetchPageContent Sample.URL_new Sample.busyThenPage
                              Sample.typedFtp)))
       = Failure msg
    /\ requests_of (log (snd (fetchPageContent Sample.URL_new
                                Sample.busyThenPage Sample.typedFtp)))
       = requests_of (log Sample.typedFtp).
Proof.
  apply (invalid_input_no_request Sample.URL_new Sample.busyThenPage
           corsProxies Sample.typedFtp).
  right. vm_compute. reflexivity.
Defined.

(** The old preview is gone after a failed fetch; its source line would
    still name the old URL. *)
Lemma fetch_clears_before_proxies_witness :
  htmlContent (react (snd (fetchPageContent Sample.URL_new Sample.allBusy
                             Sample.showing))) = js ""
  /\ lastFetchedUrl (react (snd (fetchPageContent Sample.URL_new Sample.allBusy
                                   Sample.showing)))
     = js "https://old.example".
Proof.
  destruct (fetch_clears_before_proxies Sample.URL_new Sample.allBusy
              corsProxies Sample.showing Sample_target_passes) as [_ H].
  apply (H (failurePrefix ++ js "Failed to fetch: 503")).
  vm_compute. reflexivity.
Defined.

Lemma download_without_content_is_noop_witness :
  downloadHtml Sample.mintObjectURL Sample.fresh = (Normal tt, Sample.fresh).
Proof.
  apply (download_without_content_is_noop Sample.mintObjectURL Sample.fresh).
  reflexivity.
Defined.

(** C8 as stated fails on the empty string: nothing is handed over. *)
Lemma download_empty_counterexample :
  htmlContent (react Sample.fresh) = js ""
  /\ downloads_of (log (snd (downloadHtml Sample.mintObjectURL Sample.fresh)))
     = [].
Proof. split; reflexivity. Qed.

Lemma download_exports_utf8_html_witness :
  fst (downloadHtml Sample.mintObjectURL Sample.holding) = Normal tt
  /\ downloads_of (log (snd (downloadHtml Sample.mintObjectURL Sample.holding)))
     = [{| filename := js "page-1700000000000.html";
           mimeType := js "text/html";
           bytes := [60; 112; 62; 120; 60; 47; 112; 62] |}]
  /\ requests_of (log (snd (downloadHtml Sample.mintObjectURL Sample.holding)))
     = []
  /\ react (snd (downloadHtml Sample.mintObjectURL Sample.holding))
     = react Sample.holding.
Proof.
  refine (download_exports_utf8_html Sample.mintObjectURL Sample.holding _).
  discriminate.
Defined.

(** *** Further runs *)

Lemma loading_flag_always_reset_witness :
  loading (react (snd (fetchPageContent Sample.URL_new Sample.bodyLost
                         Sample.fresh))) = false
  /\ exists between,
       log (snd (fetchPageContent Sample.URL_new Sample.bodyLost Sample.fresh))
       = log Sample.fresh
         ++ EvSetLoading true :: between ++ [EvSetLoading false].
Proof.
  apply (loading_flag_always_reset Sample.URL_new Sample.bodyLost corsProxies
           Sample.fresh).
  exact Sample_target_passes.
Defined.

Lemma Sample_faults_same_responses :
  same_responses Sample.allFaults Sample.otherFaults.
Proof.
  intros n rq. unfold Sample.allFaults, Sample.otherFaults, Sample.scripted.
  destruct n as [|[|[|n]]]; simpl; try exact I.
  destruct n; exact I.
Qed.

Lemma rejection_errors_leave_no_trace_witness :
  fetchPageContent Sample.URL_new Sample.allFaults Sample.fresh
  = fetchPageContent Sample.URL_new Sample.otherFaults Sample.fresh.
Proof.
  apply (rejection_errors_leave_no_trace Sample.URL_new Sample.allFaults
           Sample.otherFaults corsProxies Sample.fresh).
  exact Sample_faults_same_responses.
Defined.

Lemma unencodable_target_never_sent_witness :
  outcome (react (snd (fetchPageContent Sample.URL_new Sample.busyThenPage
                         Sample.typedSurrogate)))
  = Failure (failurePrefix ++ js "Failed to fetch: Network error")
  /\ requests_of (log (snd (fetchPageContent Sample.URL_new Sample.busyThenPage
                              Sample.typedSurrogate)))
     = requests_of (log Sample.typedSurrogate).
Proof.
  apply (unencodable_target_never_sent Sample.URL_new Sample.busyThenPage
           corsProxies Sample.typedSurrogate).
  - split; vm_compute; reflexivity.
  - vm_compute. reflexivity.
Defined.

Lemma blank_url_is_invalid_witness :
  isValidUrl Sample.URL_new (js "   ") = false.
Proof.
  apply (blank_url_is_invalid Sample.URL_new Sample_URL_new_scheme (js "   ")).
  reflexivity.
Defined.

Lemma reason_names_last_response_witness :
  outcome (react (snd (fetchPageContent Sample.URL_new Sample.busyThenFaults
                         Sample.fresh)))
  = Failure (failurePrefix ++ js "Failed to fetch: " ++ number_to_string 503).
Proof.
  refine (reason_names_last_response Sample.URL_new Sample.busyThenFaults
            Sample.fresh []
            [js "https://cors-anywhere.herokuapp.com/"; js "https://corsproxy.io/?"]
            (js "https://api.allorigins.win/raw?url=") Sample.encodedTarget
            {| status := 503; text := Normal (js "busy") |}
            Sample_target_passes Sample_target_encoded _ _ _ _ _).
  - apply all_failed_nil.
  - reflexivity.
  - reflexivity.
  - discriminate.
  - intros i q Hq. destruct i as [|[|i]]; simpl in Hq.
    + eexists. reflexivity.
    + eexists. reflexivity.
    + destruct i; discriminate Hq.
Defined.

Lemma download_cleans_up_after_itself_witness :
  length (log (snd (downloadHtml Sample.mintObjectURL Sample.holding))) = 6%nat
  /\ objectURLs (snd (downloadHtml Sample.mintObjectURL Sample.holding))
     = objectURLs Sample.holding.
Proof.
  destruct (download_cleans_up_after_itself Sample.mintObjectURL Sample.holding)
    as [Hlog Hstore]; [discriminate|].
  split.
  - rewrite Hlog. reflexivity.
  - apply Hstore. reflexivity.
Defined.

Lemma ascii_html_saved_verbatim_witness :
  downloads_of (log (snd (downloadHtml Sample.mintObjectURL Sample.holding)))
  = [{| filename := js "page-1700000000000.html";
        mimeType := js "text/html";
        bytes := js "<p>x</p>" |}].
Proof.
  refine (ascii_html_saved_verbatim Sample.mintObjectURL Sample.holding _ _).
  - discriminate.
  - reflexivity.
Defined.

Lemma saved_file_is_fetched_body_witness :
  downloads_of
    (log (snd (downloadHtml Sample.mintObjectURL
                 (snd (fetchPageContent Sample.URL_new Sample.busyThenPage
                         Sample.fresh)))))
  = [{| filename := js "page-1700000000000.html";
        mimeType := js "text/html";
        bytes := utf8_encode (js "<html>A</html>") |}].
Proof.
  refine (saved_file_is_fetched_body Sample.URL_new Sample.busyThenPage
            Sample.mintObjectURL Sample.fresh
            [js "https://api.allorigins.win/raw?url="]
            [js "https://corsproxy.io/?"]
            (js "https://cors-anywhere.herokuapp.com/")
            Sample.encodedTarget
            {| status := 200; text := Normal (js "<html>A</html>") |}
            (js "<html>A</html>")
            Sample_target_passes Sample_target_encoded _ _ _ _ _).
  - apply all_failed_cons. split; [reflexivity | apply all_failed_nil].
  - reflexivity.
  - reflexivity.
  - reflexivity.
  - discriminate.
Defined.

Lemma nothing_to_save_after_failure_witness :
  downloadHtml Sample.mintObjectURL
    (snd (fetchPageContent Sample.URL_new Sample.allBusy Sample.showing))
  = (Normal tt,
     snd (fetchPageContent Sample.URL_new Sample.allBusy Sample.showing)).
Proof.
  apply (nothing_to_save_after_failure Sample.URL_new Sample.allBusy
           Sample.mintObjectURL corsProxies Sample.showing
           (failurePrefix ++ js "Failed to fetch: 503")).
  - exact Sample_target_passes.
  - vm_compute. reflexivity.
Defined.

Lemma view_after_fetch_witness :
  inputValue (render (react (snd (fetchPageContent Sample.URL_new
                                    Sample.allBusy Sample.showing))))
  = Sample.target
  /\ inputDisabled (render (react (snd (fetchPageContent Sample.URL_new
                                          Sample.allBusy Sample.showing))))
     = false
  /\ submitDisabled (render (react (snd (fetchPageContent Sample.URL_new
                                           Sample.allBusy Sample.showing))))
     = false
  /\ submitLabel (render (react (snd (fetchPageContent Sample.URL_new
                                        Sample.allBusy Sample.showing))))
     = js "Fetch Page"
  /\ (errorBanner (render (react (snd (fetchPageContent Sample.URL_new
                                         Sample.allBusy Sample.showing))))
      = None
      \/ (fetchedBlock (render (react (snd (fetchPageContent Sample.URL_new
                                              Sample.allBusy Sample.showing))))
          = None
          /\ previewFrame (render (react (snd (fetchPageContent Sample.URL_new
                                                 Sample.allBusy Sample.showing))))
             = None)).
Proof.
  apply (view_after_fetch Sample.URL_new Sample.allBusy corsProxies
           Sample.showing).
  exact Sample_target_passes.
Defined.

Lemma rejected_input_keeps_old_preview_witness :
  fetchedBlock (render (react (snd (fetchPageContent Sample.URL_new
                                      Sample.busyThenPage
                                      Sample.showingTypedFtp))))
  = Some (js "Source: https://old.example")
  /\ previewFrame (render (react (snd (fetchPageContent Sample.URL_new
                                         Sample.busyThenPage
                                         Sample.showingTypedFtp))))
     = Some {| srcDoc := js "<p>old</p>"; sandbox := js "allow-same-origin" |}
  /\ inputDisabled (render (react (snd (fetchPageContent Sample.URL_new
                                          Sample.busyThenPage
                                          Sample.showingTypedFtp))))
     = false
  /\ exists msg,
       errorBanner (render (react (snd (fetchPageContent Sample.URL_new
                                          Sample.busyThenPage
                                          Sample.showingTypedFtp))))
       = Some msg.
Proof.
  refine (rejected_input_keeps_old_preview Sample.URL_new Sample.busyThenPage
            corsProxies Sample.showingTypedFtp _).
  right. vm_compute. reflexivity.
Defined.

Lemma empty_body_shows_nothing_witness :
  errorBanner (render (react (snd (fetchPageContent Sample.URL_new
                                     Sample.emptyPage Sample.showing)))) = None
  /\ fetchedBlock (render (react (snd (fetchPageContent Sample.URL_new
                                         Sample.emptyPage Sample.showing))))
     = None
  /\ previewFrame (render (react (snd (fetchPageContent Sample.URL_new
                                         Sample.emptyPage Sample.showing))))
     = None
  /\ lastFetchedUrl (react (snd (fetchPageContent Sample.URL_new
                                   Sample.emptyPage Sample.showing)))
     = Sample.target.
Proof.
  refine (empty_body_shows_nothing Sample.URL_new Sample.emptyPage
            Sample.showing []
            [js "https://cors-anywhere.herokuapp.com/"; js "https://corsproxy.io/?"]
            (js "https://api.allorigins.win/raw?url=") Sample.encodedTarget
            {| status := 200; text := Normal (js "") |}
            Sample_target_passes Sample_target_encoded _ _ _ _).
  - apply all_failed_nil.
  - reflexivity.
  - reflexivity.
  - reflexivity.
Defined.

Lemma download_button_always_delivers_witness :
  fetchedBlock (render (react Sample.holding)) <> None
  /\ downloads_of (log (snd (downloadHtml Sample.mintObjectURL Sample.holding)))
     = [{| filename := js "page-1700000000000.html";
           mimeType := js "text/html";
           bytes := utf8_encode (js "<p>x</p>") |}].
Proof.
  refine (download_button_always_delivers Sample.mintObjectURL Sample.holding
            {| srcDoc := js "<p>x</p>"; sandbox := js "allow-same-origin" |} _).
  reflexivity.
Defined.

Lemma all_rejected_reports_network_error_witness :
  outcome (react (snd (fetchPageContent Sample.URL_new Sample.allFaults
                         Sample.fresh)))
  = Failure (failurePrefix ++ js "Failed to fetch: Network error")
  /\ requests_of (log (snd (fetchPageContent Sample.URL_new Sample.allFaults
                              Sample.fresh)))
     = requests_of (log Sample.fresh)
       ++ map (proxyRequest Sample.encodedTarget) corsProxies.
Proof.
  apply (all_rejected_reports_network_error Sample.URL_new Sample.allFaults
           Sample.fresh corsProxies Sample.encodedTarget).
  - exact Sample_target_passes.
  - exact Sample_target_encoded.
  - intros i q Hq. destruct i as [|[|[|i]]]; simpl in Hq.
    + eexists. reflexivity.
    + eexists. reflexivity.
    + eexists. reflexivity.
    + destruct i; discriminate Hq.
Defined.

(** The requests of the run in which the first proxy answers 503 and the
    second answers 200. *)
Lemma requests_are_proxy_plus_encoded_target_witness :
  requests_of (log (snd (fetchPageContent Sample.URL_new Sample.busyThenPage
                           Sample.fresh)))
  = [{| input := js "https://api.allorigins.win/raw?url=https%3A%2F%2Fexample.com";
        method := js "GET";
        headers :=
          [(js "User-Agent",
            js "Mozilla/5.0 (Windows NT 10.0; Win64; x64) AppleWebKit/537.36")] |};
     {| input := js "https://cors-anywhere.herokuapp.com/https%3A%2F%2Fexample.com";
        method := js "GET";
        headers :=
          [(js "User-Agent",
            js "Mozilla/5.0 (Windows NT 10.0; Win64; x64) AppleWebKit/537.36")] |}].
Proof.
  destruct (requests_are_proxy_plus_encoded_target Sample.URL_new
              Sample.busyThenPage corsProxies Sample.fresh) as [_ H].
  destruct (H Sample.encodedTarget Sample_target_passes Sample_target_encoded)
    as (attempted & Hreq & _ & [[_ Hall]|(pre & p & post & r & Hsplit & Ha
                                           & _ & Hp & Hok)]).
  - specialize (Hall 1%nat _ eq_refl). vm_compute in Hall. discriminate Hall.
  - destruct pre as [|a [|b pre]].
    + vm_compute in Hp. injection Hp as <-. vm_compute in Hok.
      discriminate Hok.
    + injection Hsplit as <- <- _. subst attempted. exact Hreq.
    + exfalso. cbn [length] in Hp.
      change (fetchCount Sample.fresh) with 0%nat in Hp. cbn [Nat.add] in Hp.
      unfold Sample.busyThenPage, Sample.scripted in Hp. cbn [nth] in Hp.
      destruct (length pre); discriminate Hp.
Defined.

Lemma fetch_leaves_rest_of_world_witness :
  exists effects,
    log (snd (fetchPageContent Sample.URL_new Sample.busyThenPage Sample.holding))
    = log Sample.holding ++ effects
    /\ forallb fetchEffect effects = true
    /\ url (react (snd (fetchPageContent Sample.URL_new Sample.busyThenPage
                          Sample.holding)))
       = url (react Sample.holding)
    /\ objectURLs (snd (fetchPageContent Sample.URL_new Sample.busyThenPage
                          Sample.holding))
       = objectURLs Sample.holding.
Proof.
  exact (fetch_leaves_rest_of_world Sample.URL_new Sample.busyThenPage
           corsProxies Sample.holding).
Defined.
